(** * Ars Magica 5th sheet generator: [arm5_py_integration/__init__.py]

    A shallow embedding of the module that provides the parts of the
    character-sheet template: the alert registry ([alert],
    [disable_old_alerts]), the colour rules of the custom roll template
    ([css_rules], [luma]) and the [EXPORTS] table.

    Python [str] values are modelled as [string], read as the UTF-8 bytes of
    the text.  Concatenation, splitting and replacing at the ASCII newline and
    stripping ASCII characters commute with that encoding; the slices of the
    colour generator count characters, not bytes, and [int] reads digits and
    whitespace of all scripts, from tables of the interpreter that are a
    parameter of the model ([Runtime]).  Python [float] is IEEE binary64,
    modelled by the kernel's primitive floats. *)

From Stdlib Require Import String Ascii List Bool Arith Lia ZArith Permutation.
From Stdlib Require Import Decimal DecimalString DecimalNat.
From Stdlib Require Import Uint63 Floats.
From stdpp Require Import gmap strings.
Import ListNotations.

Local Open Scope string_scope.
Local Open Scope list_scope.

(** ** Characters and strings *)

Module Str.

(** The newline character, ["\n"] in the source. *)
Definition nl_char : ascii := "010"%char.
Definition nl : string := String nl_char EmptyString.

(** The double quote, which the templates of the module contain. *)
Definition dq : string := String "034"%char EmptyString.

(** [quoted s] is [s] between double quotes. *)
Definition quoted (s : string) : string := dq +:+ s +:+ dq.

(** [" " * n] *)
Fixpoint spaces (n : nat) : string :=
  match n with
  | O => EmptyString
  | S k => String " "%char (spaces k)
  end.

(** [sep.join(parts)] *)
Definition join (sep : string) (parts : list string) : string :=
  String.concat sep parts.

(** [s.split("\n")]: the lines of [s]; never the empty list. *)
Fixpoint split_lines (s : string) : list string :=
  match s with
  | EmptyString => [EmptyString]
  | String c rest =>
      if Ascii.eqb c nl_char then EmptyString :: split_lines rest
      else match split_lines rest with
           | l :: ls => String c l :: ls
           | [] => [String c EmptyString]
           end
  end.

(** [s.replace(old, new)] for a pattern [old] of one character. *)
Fixpoint replace (old : ascii) (new : string) (s : string) : string :=
  match s with
  | EmptyString => EmptyString
  | String c rest =>
      if Ascii.eqb c old then new +:+ replace old new rest
      else String c (replace old new rest)
  end.

(** [s[n:]] *)
Fixpoint drop (n : nat) (s : string) : string :=
  match n, s with
  | O, _ => s
  | S _, EmptyString => EmptyString
  | S k, String _ rest => drop k rest
  end.

(** [s.lstrip(c)] for a set of one character. *)
Fixpoint lstrip (c : ascii) (s : string) : string :=
  match s with
  | String d rest => if Ascii.eqb d c then lstrip c rest else s
  | EmptyString => EmptyString
  end.

(** [needle in hay], as a proposition and as a test. *)
Definition contains (needle hay : string) : Prop :=
  exists pre post, hay = pre +:+ needle +:+ post.

Fixpoint containsb (needle hay : string) : bool :=
  String.prefix needle hay
  || match hay with
     | EmptyString => false
     | String _ rest => containsb needle rest
     end.


(** No newline in [s]. *)
Fixpoint one_line (s : string) : bool :=
  match s with
  | EmptyString => true
  | String c rest => negb (Ascii.eqb c nl_char) && one_line rest
  end.

(** [str(n)] for a natural number: its decimal digits. *)
Definition of_nat (n : nat) : string :=
  NilEmpty.string_of_uint (Nat.to_uint n).

(** ASCII case tests and conversions used by [str.title]. *)
Definition is_lower (c : ascii) : bool :=
  let n := nat_of_ascii c in Nat.leb 97 n && Nat.leb n 122.
Definition is_upper (c : ascii) : bool :=
  let n := nat_of_ascii c in Nat.leb 65 n && Nat.leb n 90.
Definition to_upper (c : ascii) : ascii :=
  if is_lower c then ascii_of_nat (nat_of_ascii c - 32) else c.
Definition to_lower (c : ascii) : ascii :=
  if is_upper c then ascii_of_nat (nat_of_ascii c + 32) else c.

(** [s.title()] on ASCII text: a cased character that follows an uncased
    one is upper-cased, one that follows a cased one is lower-cased. *)
Fixpoint title_from (previous_is_cased : bool) (s : string) : string :=
  match s with
  | EmptyString => EmptyString
  | String c rest =>
      if is_lower c then
        String (if previous_is_cased then c else to_upper c) (title_from true rest)
      else if is_upper c then
        String (if previous_is_cased then to_lower c else c) (title_from true rest)
      else String c (title_from false rest)
  end.
Definition title (s : string) : string := title_from false s.

End Str.

(** ** [textwrap.dedent]

    The standard library function the two generators pass their templates
    through, modelled line by line after CPython's implementation with
    regular expressions (Python 3 up to 3.13): lines made only of spaces and
    tabs are emptied, the margin is the longest run of leading blanks common
    to the remaining non-empty lines, and that margin is removed from the
    start of every line that has it. *)

Module Textwrap.
Import Str.

(** [[ \t]] *)
Definition is_blank (c : ascii) : bool :=
  Ascii.eqb c " "%char || Ascii.eqb c "009"%char.

(** Every character is a space or a tab. *)
Fixpoint all_blank (s : string) : bool :=
  match s with
  | EmptyString => true
  | String c rest => is_blank c && all_blank rest
  end.

(** [_whitespace_only_re.sub('', text)], on one line. *)
Definition normalize (line : string) : string :=
  if all_blank line then EmptyString else line.

(** The group of [_leading_whitespace_re] on one line. *)
Fixpoint leading_ws (s : string) : string :=
  match s with
  | String c rest => if is_blank c then String c (leading_ws rest) else EmptyString
  | EmptyString => EmptyString
  end.

Definition nonempty (s : string) : bool :=
  match s with EmptyString => false | _ => true end.

(** [_leading_whitespace_re.findall(text)]: one indent for each line that
    has a character other than a blank. *)
Definition indents (lines : list string) : list string :=
  map leading_ws (List.filter nonempty lines).

(** The [for]/[zip] loop of the last branch: [margin[:i]] at the first
    index [i] where the two differ, [margin] itself when there is none. *)
Fixpoint cut_at_diff (margin indent : string) : string :=
  match margin, indent with
  | String x m, String y i =>
      if Ascii.eqb x y then String x (cut_at_diff m i) else EmptyString
  | _, _ => margin
  end.

(** One turn of the loop over the indents; [None] is Python's [None]. *)
Definition next_margin (margin : option string) (indent : string) : option string :=
  match margin with
  | None => Some indent
  | Some m =>
      if String.prefix m indent then Some m
      else if String.prefix indent m then Some indent
      else Some (cut_at_diff m indent)
  end.

Definition margin_of (lines : list string) : option string :=
  fold_left next_margin (indents lines) None.

(** [re.sub(r'(?m)^' + margin, '', text)], on one line. *)
Definition strip_margin (margin line : string) : string :=
  if String.prefix margin line then drop (String.length margin) line else line.

(** The margin as a string: empty when there is none. *)
Definition margin_str (lines : list string) : string :=
  match margin_of lines with
  | Some m => m
  | None => EmptyString
  end.

Definition dedent (text : string) : string :=
  let lines := map normalize (split_lines text) in
  match margin_of lines with
  | Some (String c m) => join nl (map (strip_margin (String c m)) lines)
  | _ => join nl lines
  end.

End Textwrap.

(** ** The alert registry *)

(** An alert identifier is an [int] (assigned by the registry) or a [str]
    (given by the caller). *)
Inductive alert_id : Type :=
| IntId (n : nat)
| StrId (s : string).

(** [f"{alert_id}"] *)
Definition format_id (i : alert_id) : string :=
  match i with
  | IntId n => Str.of_nat n
  | StrId s => s
  end.

(** The attributes of the function object [alert]. *)
Record registry : Type := mkRegistry {
  numid : nat;
  strid : list string;
  has_disable_been_called : bool
}.

(** The registry as the module leaves it after lines 68-70. *)
Definition registry_init : registry :=
  {| numid := 0; strid := []; has_disable_been_called := false |}.

(** The exceptions the module raises, and those raised in it by [int] and
    by a method called on [None]. *)
Inductive exn : Type :=
| ValueError (msg : string)
| RuntimeError (msg : string)
| AttributeError (msg : string).

Inductive result (A : Type) : Type :=
| Ok (a : A)
| Raise (e : exn).
Arguments Ok {A} a.
Arguments Raise {A} e.

(** Computations over the registry that may raise: the state that comes back
    with an exception is the state at the [raise]. *)
Definition M (A : Type) : Type := registry -> result A * registry.

Definition ret {A} (a : A) : M A := fun st => (Ok a, st).
Definition raise {A} (e : exn) : M A := fun st => (Raise e, st).
Definition bind {A B} (m : M A) (k : A -> M B) : M B :=
  fun st =>
    match m st with
    | (Ok a, st') => k a st'
    | (Raise e, st') => (Raise e, st')
    end.
Definition get : M registry := fun st => (Ok st, st).
Definition put (st : registry) : M unit := fun _ => (Ok tt, st).

Notation "x <- m ;; k" := (bind m (fun x => k))
  (at level 100, m at next level, right associativity).
Notation "m ;;; k" := (bind m (fun _ => k))
  (at level 100, right associativity).

(** [alert.numid += 1] *)
Definition incr_numid : M unit :=
  st <- get ;;
  put {| numid := numid st + 1; strid := strid st;
         has_disable_been_called := has_disable_been_called st |}.

(** [alert.strid.append(s)] *)
Definition append_strid (s : string) : M unit :=
  st <- get ;;
  put {| numid := numid st; strid := strid st ++ [s];
         has_disable_been_called := has_disable_been_called st |}.

(** [alert.has_disable_been_called = True] *)
Definition set_disable_called : M unit :=
  st <- get ;;
  put {| numid := numid st; strid := strid st;
         has_disable_been_called := true |}.

(** [level in ("info", "warning")] *)
Definition level_ok (level : string) : bool :=
  String.eqb level "info" || String.eqb level "warning".

Definition level_error : exn :=
  ValueError "Level must be among 'info', 'warning'".

Definition order_error : exn :=
  RuntimeError
    ("The function alert() is called after disable_old_alert() has generated "
     +:+ "the javascript code to handle hidding closed alerts. This breaks the "
     +:+ "system completely, make sure disable_old_alerts is called last").

(** The template of the banner before [textwrap.dedent], one element per
    line of the f-string of lines 52-62; [text] is already re-indented. *)
Definition alert_template (alert_id : alert_id) (level title text : string) : string :=
  Str.join Str.nl
    [ Str.spaces 8 +:+ "<input type=" +:+ Str.quoted "hidden"
        +:+ " class=" +:+ Str.quoted "alert-hidder"
        +:+ " name=" +:+ Str.quoted ("attr_alert-" +:+ format_id alert_id)
        +:+ " value=" +:+ Str.quoted "0" +:+ "/>";
      Str.spaces 8 +:+ "<div class=" +:+ Str.quoted ("alert alert-" +:+ level) +:+ ">";
      Str.spaces 12 +:+ "<div>";
      Str.spaces 16 +:+ "<h3> " +:+ Str.title level +:+ " - " +:+ title +:+ "</h3>";
      Str.spaces 16 +:+ text;
      Str.spaces 12 +:+ "</div>";
      Str.spaces 12 +:+ "<label class=" +:+ Str.quoted "fakebutton" +:+ ">";
      Str.spaces 16 +:+ "<input type=" +:+ Str.quoted "checkbox"
        +:+ " name=" +:+ Str.quoted ("attr_alert-" +:+ format_id alert_id)
        +:+ " value=" +:+ Str.quoted "1" +:+ " /> "
        +:+ String "195"%char (String "151"%char EmptyString);
      Str.spaces 12 +:+ "</label>";
      Str.spaces 8 +:+ "</div>" ].

(** Lines 49-63: the banner for an identifier already assigned. *)
Definition banner (alert_id : alert_id) (level title text : string) : string :=
  let indent := Str.spaces (4 * 4) in
  let text := Str.replace Str.nl_char (Str.nl +:+ indent) text in
  Textwrap.dedent (alert_template alert_id level title text).

(** Lines 42-47: the identifier of the new alert, and its registration. *)
Definition assign_id (ID : option string) : M alert_id :=
  match ID with
  | None =>
      st <- get ;;
      let alert_id := numid st in
      incr_numid ;;;
      ret (IntId alert_id)
  | Some s =>
      let alert_id := s in
      append_strid alert_id ;;;
      ret (StrId alert_id)
  end.

(** [alert(title, text, *, level, ID)] *)
Definition alert (title text level : string) (ID : option string) : M string :=
  if negb (level_ok level) then raise level_error
  else
    st <- get ;;
    if has_disable_been_called st then raise order_error
    else
      alert_id <- assign_id ID ;;
      ret (banner alert_id level title text).

(** [f'"alert-{i}": 1'] *)
Definition alert_entry (i : alert_id) : string :=
  Str.quoted ("alert-" +:+ format_id i) +:+ ": 1".

(** [list(range(alert.numid)) + alert.strid] *)
Definition registered_ids (st : registry) : list alert_id :=
  map IntId (seq 0 (numid st)) ++ map StrId (strid st).

(** The template of the closing script before [textwrap.dedent]. *)
Definition script_template (marker lines : string) : string :=
  Str.join Str.nl
    [ Str.spaces 8 +:+ "setAttrs({";
      Str.spaces 12 +:+ Str.quoted marker +:+ ": 1,";
      Str.spaces 12 +:+ lines;
      Str.spaces 8 +:+ "}); " ].

(** [disable_old_alerts(marker)] *)
Definition disable_old_alerts (marker : string) : M string :=
  set_disable_called ;;;
  st <- get ;;
  let indent := Str.spaces (4 * 3) in
  let lines := Str.join ("," +:+ Str.nl +:+ indent) (map alert_entry (registered_ids st)) in
  ret (Textwrap.dedent (script_template marker lines)).

(** ** The colours of the custom roll template *)

(** [int(s, 16)] on ASCII text, after CPython's [PyLong_FromString]:
    surrounding whitespace, an optional sign, an optional [0x] prefix, then
    hexadecimal digits that single underscores may separate.  [None] is the
    [ValueError] Python raises. *)
Module Int16.

Definition is_space (c : ascii) : bool :=
  let n := nat_of_ascii c in (Nat.leb 9 n && Nat.leb n 13) || Nat.eqb n 32.

Definition digit (c : ascii) : option Z :=
  let n := nat_of_ascii c in
  if Nat.leb 48 n && Nat.leb n 57 then Some (Z.of_nat (n - 48))
  else if Nat.leb 97 n && Nat.leb n 102 then Some (Z.of_nat (n - 87))
  else if Nat.leb 65 n && Nat.leb n 70 then Some (Z.of_nat (n - 55))
  else None.

Fixpoint skip_spaces (s : string) : string :=
  match s with
  | String c rest => if is_space c then skip_spaces rest else s
  | EmptyString => EmptyString
  end.

Fixpoint all_spaces (s : string) : bool :=
  match s with
  | String c rest => is_space c && all_spaces rest
  | EmptyString => true
  end.

(** The digit loop: the value read so far, the number of digits, and what
    is left; [None] on a doubled or trailing underscore. *)
Fixpoint digits (prev_underscore : bool) (acc : Z) (count : nat) (s : string)
  : option (Z * nat * string) :=
  match s with
  | String c rest =>
      if Ascii.eqb c "_"%char then
        if prev_underscore then None else digits true acc count rest
      else
        match digit c with
        | Some d => digits false (16 * acc + d) (S count) rest
        | None => if prev_underscore then None else Some (acc, count, s)
        end
  | EmptyString => if prev_underscore then None else Some (acc, count, s)
  end.

Definition skip_prefix (s : string) : string :=
  match s with
  | String "0"%char (String x rest) =>
      if Ascii.eqb x "x"%char || Ascii.eqb x "X"%char then
        match rest with
        | String "_"%char rest' => rest'
        | _ => rest
        end
      else s
  | _ => s
  end.

Definition parse (s : string) : option Z :=
  let s := skip_spaces s in
  let '(sign, s) :=
    match s with
    | String "+"%char rest => (1%Z, rest)
    | String "-"%char rest => ((-1)%Z, rest)
    | _ => (1%Z, s)
    end in
  let s := skip_prefix s in
  match s with
  | String "_"%char _ => None
  | _ =>
      match digits false 0 0 s with
      | Some (v, S _, rest) => if all_spaces rest then Some (sign * v)%Z else None
      | _ => None
      end
  end.

End Int16.

(** The characters of a text in UTF-8: a character is a byte that is no
    continuation byte, with the continuation bytes that follow it.  Slices
    count characters, as Python's do. *)
Module Utf8.

Definition is_ascii (c : ascii) : bool := Nat.ltb (nat_of_ascii c) 128.

Definition is_continuation (c : ascii) : bool :=
  let n := nat_of_ascii c in Nat.leb 128 n && Nat.ltb n 192.

(** The continuation bytes at the head of [s], and what follows them. *)
Fixpoint take_cont (s : string) : string :=
  match s with
  | String c rest => if is_continuation c then String c (take_cont rest) else EmptyString
  | EmptyString => EmptyString
  end.

Fixpoint skip_cont (s : string) : string :=
  match s with
  | String c rest => if is_continuation c then skip_cont rest else s
  | EmptyString => EmptyString
  end.

(** [s[:n]] and [s[n:]], in characters. *)
Fixpoint take (n : nat) (s : string) : string :=
  match n, s with
  | O, _ => EmptyString
  | S _, EmptyString => EmptyString
  | S k, String c rest => String c (take_cont rest +:+ take k (skip_cont rest))
  end.

Fixpoint drop (n : nat) (s : string) : string :=
  match n, s with
  | O, _ => s
  | S _, EmptyString => EmptyString
  | S k, String _ rest => drop k (skip_cont rest)
  end.

(** [s[start:stop]] for [0 <= start <= stop]. *)
Definition slice (start stop : nat) (s : string) : string :=
  take (stop - start) (drop start s).

(** A text is empty or starts at a character. *)
Definition starts_char (s : string) : bool :=
  match s with
  | EmptyString => true
  | String c _ => negb (is_continuation c)
  end.

Fixpoint all_ascii (s : string) : bool :=
  match s with
  | EmptyString => true
  | String c rest => is_ascii c && all_ascii rest
  end.

End Utf8.

(** What [int] makes of a character that is not ASCII depends on two tables
    of the interpreter, which are parameters here: the characters that are
    whitespace ([Py_UNICODE_ISSPACE]), and the decimal digits of all scripts
    with their values ([Py_UNICODE_TODECIMAL]).  A character is given by its
    bytes. *)
Class Runtime : Type := {
  unicode_space : string -> bool;
  unicode_decimal : string -> option nat;
  unicode_decimal_digit : forall ch d, unicode_decimal ch = Some d -> d < 10
}.

(** An interpreter that knows no whitespace and no digit outside ASCII. *)
Definition ascii_runtime : Runtime.
Proof.
  refine {| unicode_space := fun _ => false; unicode_decimal := fun _ => None |}.
  discriminate.
Defined.

(** A part of the tables of CPython: the no-break space U+00A0, the
    Arabic-Indic digits U+0660 to U+0669 and the fullwidth digits U+FF10 to
    U+FF19. *)
Definition sample_space (ch : string) : bool :=
  String.eqb ch (String "194"%char (String "160"%char EmptyString)).

Definition sample_decimal (ch : string) : option nat :=
  match ch with
  | String "217"%char (String c EmptyString) =>
      let n := nat_of_ascii c in
      if Nat.leb 160 n && Nat.leb n 169 then Some (n - 160) else None
  | String "239"%char (String "188"%char (String c EmptyString)) =>
      let n := nat_of_ascii c in
      if Nat.leb 144 n && Nat.leb n 153 then Some (n - 144) else None
  | _ => None
  end.

Lemma sample_decimal_digit (ch : string) (d : nat) :
  sample_decimal ch = Some d -> d < 10.
Proof.
  unfold sample_decimal.
  repeat match goal with
  | |- context [match ?x with _ => _ end] => destruct x eqn:?; try discriminate
  end;
  intros [= <-];
  repeat match goal with
  | H : (_ && _)%bool = true |- _ => apply andb_true_iff in H as [? ?]
  | H : Nat.leb _ _ = true |- _ => apply Nat.leb_le in H
  end; lia.
Qed.

Definition sample_runtime : Runtime :=
  {| unicode_space := sample_space;
     unicode_decimal := sample_decimal;
     unicode_decimal_digit := sample_decimal_digit |}.

Section Int.
Context {rt : Runtime}.

(** The text [int] reads, after CPython's
    [_PyUnicode_TransformDecimalAndSpaceToASCII]: ASCII characters as they
    are, a whitespace character as a space, a decimal digit as the ASCII digit
    of its value, and at the first other character a question mark that ends
    the text. *)
Fixpoint to_ascii (s : string) : string :=
  match s with
  | EmptyString => EmptyString
  | String c rest =>
      if Utf8.is_continuation c then to_ascii rest
      else if Nat.ltb (nat_of_ascii c) 127 then String c (to_ascii rest)
      else
        let ch := String c (Utf8.take_cont rest) in
        if unicode_space ch then String " "%char (to_ascii rest)
        else
          match unicode_decimal ch with
          | Some d => String (ascii_of_nat (48 + d)) (to_ascii rest)
          | None => "?"
          end
  end.

(** [int(s, 16)]: a text that is all ASCII is read as it is, any other
    after [to_ascii]; [None] is the [ValueError]. *)
Definition int16 (s : string) : option Z :=
  Int16.parse (if Utf8.all_ascii s then s else to_ascii s).

End Int.

(** A row of [css_colors.csv] as [csv.DictReader] yields it under a header
    with the columns [color] and [hex]; a field the row is too short to have
    is [None]. *)
Record color_def : Type := mkColor {
  color : option string;
  hex : option string
}.

(** [f"{field}"] *)
Definition format_field (field : option string) : string :=
  match field with
  | Some s => s
  | None => "None"
  end.

(** The [int] a channel is read as, converted for the true division. *)
Definition float_of_int (z : Z) : float :=
  match z with
  | Z0 => PrimFloat.of_uint63 0%uint63
  | Zpos _ => PrimFloat.of_uint63 (Uint63.of_Z z)
  | Zneg _ => PrimFloat.opp (PrimFloat.of_uint63 (Uint63.of_Z (Z.opp z)))
  end.

Section Colours.
Context {rt : Runtime}.

(** [int(hex_color[2 * i : 2 * i + 2], 16) / 255] *)
Definition channel (hex_color : string) (i : nat) : option float :=
  match int16 (Utf8.slice (2 * i) (2 * i + 2) hex_color) with
  | Some v => Some (PrimFloat.div (float_of_int v) (PrimFloat.of_uint63 255%uint63))
  | None => None
  end.

(** [luma = 0.2126 * r + 0.7152 * g + 0.0722 * b]; each weight is read as
    the binary64 value nearest to it, as Python reads it. *)
#[warnings="-inexact-float"]
Definition luma_of (r g b : float) : float :=
  (0.2126 * r + 0.7152 * g + 0.0722 * b)%float.

(** The [ValueError] of [int]; the message CPython builds goes on with the
    text that could not be read, which is left out here. *)
Definition hex_error : exn :=
  ValueError "invalid literal for int() with base 16".

(** The [AttributeError] of [color_def["hex"].lstrip] on a row without
    [hex]. *)
Definition no_hex_error : exn :=
  AttributeError "'NoneType' object has no attribute 'lstrip'".

(** Lines 139-143: the luma of a colour given by its [hex] column. *)
Definition luma (hex : string) : result float :=
  let hex_color := Str.lstrip "#"%char hex in
  match channel hex_color 0 with
  | None => Raise hex_error
  | Some r =>
      match channel hex_color 1 with
      | None => Raise hex_error
      | Some g =>
          match channel hex_color 2 with
          | None => Raise hex_error
          | Some b => Ok (luma_of r g b)
          end
      end
  end.

(** The base rules of one colour, lines 125-136: the selector built on the
    name of the colour and the background property set to its [hex]. *)
Definition base_header (d : color_def) : list string :=
  [ ".sheet-rolltemplate-custom .sheet-crt-container.sheet-crt-color-"
      +:+ format_field (color d) +:+ " {";
    "    --header-bg-color: " +:+ format_field (hex d) +:+ ";" ].

Definition base_rolls (d : color_def) : list string :=
  [ ".sheet-rolltemplate-custom .sheet-crt-container.sheet-crt-rlcolor-"
      +:+ format_field (color d) +:+ " .inlinerollresult {";
    "    --roll-bg-color: " +:+ format_field (hex d) +:+ ";" ].

Definition base_buttons (d : color_def) : list string :=
  [ ".sheet-rolltemplate-custom .sheet-crt-container.sheet-crt-btcolor-"
      +:+ format_field (color d) +:+ " a {";
    "    --button-bg-color: " +:+ format_field (hex d) +:+ ";" ].

(** The text colours of lines 146-149. *)
Definition header_text_black : string := "    --header-text-color: #000;".
Definition button_text_black : string := "    --button-text-color: #000;".
Definition roll_text_white : string := "    --roll-text-color: #FFF;".

(** The three lists of lines after the two tests on the luma [l], lines
    144-149. *)
Definition lines_header (d : color_def) (l : float) : list string :=
  base_header d ++ (if PrimFloat.ltb 0.5%float l then [header_text_black] else []).

Definition lines_rolls (d : color_def) (l : float) : list string :=
  base_rolls d ++ (if PrimFloat.ltb l 0.5%float then [roll_text_white] else []).

Definition lines_buttons (d : color_def) (l : float) : list string :=
  base_buttons d ++ (if PrimFloat.ltb 0.5%float l then [button_text_black] else []).

(** Lines 152-154: a list of lines closed and joined into one rule. *)
Definition build_rule (lines : list string) : string :=
  Str.join Str.nl (lines ++ ["}"]).

(** The body of the loop over the rows: the rules one colour adds. *)
Definition color_rules (d : color_def) : result (list string) :=
  match hex d with
  | None => Raise no_hex_error
  | Some h =>
      match luma h with
      | Raise e => Raise e
      | Ok l => Ok (map build_rule [lines_header d l; lines_rolls d l; lines_buttons d l])
      end
  end.

(** The loop of lines 122-154 over the rows of the table. *)
Fixpoint css_rules_from (css_rules : list string) (rows : list color_def)
  : result (list string) :=
  match rows with
  | [] => Ok css_rules
  | d :: rest =>
      match color_rules d with
      | Raise e => Raise e
      | Ok rules => css_rules_from (css_rules ++ rules) rest
      end
  end.

Definition css_rules (rows : list color_def) : result (list string) :=
  css_rules_from [] rows.

(** [EXPORTS["custom_rt_color_css"]] *)
Definition custom_rt_color_css (rows : list color_def) : result string :=
  match css_rules rows with
  | Raise e => Raise e
  | Ok rules => Ok ("*/" +:+ Str.nl +:+ Str.join Str.nl rules +:+ Str.nl +:+ "/*")
  end.

End Colours.

(** ** The export table *)

(** A value of the table: a string the module builds, or an object defined
    elsewhere (a module, a function, a value of another module), by name. *)
Inductive pyobj : Type :=
| PyStr (s : string)
| PyRef (name : string).

(** [d.update(other)]: the bindings of [other] win. *)
Definition update (d other : gmap string pyobj) : gmap string pyobj :=
  other ∪ d.

(** [["[[1d10cf10cs0]]"] * n] joined by spaces, after ["{n} Die,"] or
    ["{n} Dice,"]. *)
Definition botch_option (n : nat) : string :=
  Str.of_nat n +:+ " " +:+ (if Nat.eqb n 1 then "Die" else "Dice") +:+ ","
  +:+ Str.join " " (repeat "[[1d10cf10cs0]]" n).

(** [EXPORTS["botch_separate"]], lines 106-117. *)
Definition botch_separate : string :=
  "&{template:botch} {{roll= "
  +:+ ("?{@{botch_num_i18n} | "
       +:+ Str.join "|" (map botch_option (seq 1 8))
       +:+ "}")
  +:+ " }} {{type=Grouped}}".

(** The dictionary display of lines 91-103. *)
Definition EXPORTS_literal : gmap string pyobj :=
  <["css_header" := PyStr ("DO NOT MODIFY !" +:+ Str.nl
      +:+ "This file is automatically generated from a template. "
      +:+ "Any change will be overwritten" +:+ Str.nl)]>
  (<["html_header" := PyStr ("<!-- DO NOT MODIFY !" +:+ Str.nl
      +:+ "This file is automatically generated from a template. "
      +:+ "Any change will be overwritten" +:+ Str.nl +:+ "-->")]>
  (<["translation_attrs_setup" := PyRef "translation_attrs_setup"]>
  (<["translation_attrs" := PyRef "translation_attrs"]>
  (<["disable_old_alerts" := PyRef "disable_old_alerts"]>
  (<["alert" := PyRef "alert"]>
  (<["xp" := PyRef "xp"]>
  (<["markdown" := PyRef "markdown"]> ∅))))))).

(** The table before the tabs are merged: lines 91-156. *)
Definition EXPORTS_own (css : string) : gmap string pyobj :=
  <["custom_rt_color_css" := PyStr css]>
  (<["botch_separate" := PyStr botch_separate]> EXPORTS_literal).

(** Lines 159-164: the tabs merged one after the other; [tabs] lists their
    tables in the order of the [update] calls. *)
Definition merge_tabs (exports : gmap string pyobj) (tabs : list (gmap string pyobj))
  : gmap string pyobj :=
  fold_left update tabs exports.

(** The module's [EXPORTS], from the rows of [css_colors.csv] and the
    [EXPORTS] tables of the six tab modules. *)
Definition EXPORTS {rt : Runtime} (rows : list color_def)
    (tab_1_character tab_2_abilities tab_3_magic
     tab_4_combat tab_5_spells tab_6_sheet : gmap string pyobj)
  : result (gmap string pyobj) :=
  match custom_rt_color_css rows with
  | Raise e => Raise e
  | Ok css =>
      let EXPORTS := EXPORTS_own css in
      let EXPORTS := update EXPORTS tab_1_character in
      let EXPORTS := update EXPORTS tab_2_abilities in
      let EXPORTS := update EXPORTS tab_3_magic in
      let EXPORTS := update EXPORTS tab_4_combat in
      let EXPORTS := update EXPORTS tab_5_spells in
      let EXPORTS := update EXPORTS tab_6_sheet in
      Ok EXPORTS
  end.

(** ** Sequences of calls *)

(** One call [alert(title, text, level=level, ID=ID)] of a template. *)
Record call : Type := mkCall {
  call_title : string;
  call_text : string;
  call_level : string;
  call_ID : option string
}.

(** A call whose level is one of the two recognised. *)
Definition valid_call (c : call) : Prop :=
  call_level c = "info" \/ call_level c = "warning".

(** The calls made one after the other, with the banners they return; an
    exception ends the sequence. *)
Fixpoint run_alerts (calls : list call) : M (list string) :=
  match calls with
  | [] => ret []
  | c :: rest =>
      b <- alert (call_title c) (call_text c) (call_level c) (call_ID c) ;;
      bs <- run_alerts rest ;;
      ret (b :: bs)
  end.

(** The identifiers lines 42-47 give to a sequence of calls, the first of
    which finds the counter at [n]. *)
Fixpoint assigned_ids (n : nat) (calls : list call) : list alert_id :=
  match calls with
  | [] => []
  | c :: rest =>
      match call_ID c with
      | None => IntId n :: assigned_ids (S n) rest
      | Some s => StrId s :: assigned_ids n rest
      end
  end.

(** The hidden input of a banner, as the first line of the template has it. *)
Definition hidden_input (i : alert_id) : string :=
  "<input type=" +:+ Str.quoted "hidden"
  +:+ " class=" +:+ Str.quoted "alert-hidder"
  +:+ " name=" +:+ Str.quoted ("attr_alert-" +:+ format_id i)
  +:+ " value=" +:+ Str.quoted "0" +:+ "/>".

(** The banners of a sequence of calls, from the identifiers they get. *)
Fixpoint banners_of (ids : list alert_id) (calls : list call) : list string :=
  match ids, calls with
  | i :: ids', c :: calls' =>
      banner i (call_level c) (call_title c) (call_text c) :: banners_of ids' calls'
  | _, _ => []
  end.

(** The string identifiers a sequence of calls gives, in the order of the
    calls, and the number of calls that give none. *)
Fixpoint explicit_ids (calls : list call) : list string :=
  match calls with
  | [] => []
  | c :: rest =>
      match call_ID c with
      | None => explicit_ids rest
      | Some s => s :: explicit_ids rest
      end
  end.

Fixpoint auto_count (calls : list call) : nat :=
  match calls with
  | [] => 0
  | c :: rest =>
      match call_ID c with
      | None => S (auto_count rest)
      | Some _ => auto_count rest
      end
  end.



(** A colour written [#RRGGBB]: a hash and six hexadecimal digits. *)
Definition is_hex_digit (c : ascii) : bool :=
  match Int16.digit c with Some _ => true | None => false end.

Definition is_rrggbb (hex : string) : bool :=
  match hex with
  | String "#"%char (String r1 (String r2 (String g1 (String g2
      (String b1 (String b2 EmptyString)))))) =>
      forallb is_hex_digit [r1; r2; g1; g2; b1; b2]
  | _ => false
  end.

(** A colour whose [hex] the generator can read. *)
Definition readable {rt : Runtime} (d : color_def) : Prop :=
  exists h l, hex d = Some h /\ luma h = Ok l.

(** The rules one colour adds; none when its [hex] cannot be read. *)
Definition rules_of {rt : Runtime} (d : color_def) : list string :=
  match color_rules d with
  | Ok rules => rules
  | Raise _ => []
  end.

(** The binding of [k] in the last of the tables that has one. *)
Definition last_binding (k : string) (tabs : list (gmap string pyobj)) : option pyobj :=
  fold_left (fun found t => match t !! k with Some v => Some v | None => found end)
    tabs None.

(** The value of two hexadecimal digits. *)
Definition pair_value (c1 c2 : ascii) : Z :=
  match Int16.digit c1, Int16.digit c2 with
  | Some v1, Some v2 => 16 * v1 + v2
  | _, _ => 0
  end.

(** ** The banner line by line, and sequences of operations *)

(** The lines of a banner whose title and identifier hold no newline: the
    template without its margin of eight spaces; a line of the text made of
    blanks only is empty. *)
Definition banner_lines (i : alert_id) (level title text : string) : list string :=
  [ hidden_input i;
    "<div class=" +:+ Str.quoted ("alert alert-" +:+ level) +:+ ">";
    Str.spaces 4 +:+ "<div>";
    Str.spaces 8 +:+ "<h3> " +:+ Str.title level +:+ " - " +:+ title +:+ "</h3>" ]
  ++ map (fun t => if Textwrap.all_blank t then EmptyString else Str.spaces 8 +:+ t)
       (Str.split_lines text)
  ++ [ Str.spaces 4 +:+ "</div>";
       Str.spaces 4 +:+ "<label class=" +:+ Str.quoted "fakebutton" +:+ ">";
       Str.spaces 8 +:+ "<input type=" +:+ Str.quoted "checkbox"
         +:+ " name=" +:+ Str.quoted ("attr_alert-" +:+ format_id i)
         +:+ " value=" +:+ Str.quoted "1" +:+ " /> "
         +:+ String "195"%char (String "151"%char EmptyString);
       Str.spaces 4 +:+ "</label>";
       "</div>" ].

(** A call of one of the two functions of the registry. *)
Inductive op : Type :=
| CallAlert (c : call)
| CallDisable (marker : string).

Definition step (o : op) : M string :=
  match o with
  | CallAlert c => alert (call_title c) (call_text c) (call_level c) (call_ID c)
  | CallDisable marker => disable_old_alerts marker
  end.

(** The registry after a sequence of calls, each made on the registry the
    one before it left, whether it returned or raised. *)
Definition run_ops (ops : list op) (st : registry) : registry :=
  fold_left (fun st o => snd (step o st)) ops st.

(** The number of calls of [alert] in the sequence that return a banner. *)
Fixpoint alerts_done (ops : list op) (st : registry) : nat :=
  match ops with
  | [] => 0
  | o :: rest =>
      (match o, fst (step o st) with
       | CallAlert _, Ok _ => 1
       | _, _ => 0
       end) + alerts_done rest (snd (step o st))
  end.

(** [s.lower()] on ASCII text. *)
Fixpoint lower (s : string) : string :=
  match s with
  | EmptyString => EmptyString
  | String c rest => String (Str.to_lower c) (lower rest)
  end.

(** Tables that give one value to every key that several of them bind. *)
Definition agree (tabs : list (gmap string pyobj)) : Prop :=
  forall t t' k v v',
    In t tabs -> In t' tabs -> t !! k = Some v -> t' !! k = Some v' -> v = v'.

(** * Properties *)

#[local] Arguments String.append : simpl nomatch.

(** ** The library functions on examples *)

(** The example of the documentation of [textwrap.dedent]. *)
Example dedent_hello_world :
  Textwrap.dedent ("    hello" +:+ Str.nl +:+ "      world" +:+ Str.nl +:+ "    ")
  = "hello" +:+ Str.nl +:+ "  world" +:+ Str.nl.
Proof. reflexivity. Qed.

(** Tabs and spaces are both blanks and are not equal: no common margin. *)
Example dedent_tab_and_spaces :
  Textwrap.dedent ("  hello" +:+ Str.nl +:+ String "009"%char "hello")
  = "  hello" +:+ Str.nl +:+ String "009"%char "hello".
Proof. reflexivity. Qed.

(** A line less indented than the first one shortens the margin. *)
Example dedent_shorter_line :
  Textwrap.dedent ("    a" +:+ Str.nl +:+ "  b" +:+ Str.nl +:+ "      c")
  = "  a" +:+ Str.nl +:+ "b" +:+ Str.nl +:+ "    c".
Proof. reflexivity. Qed.

Example int16_examples :
  Int16.parse "ff" = Some 255%Z /\ Int16.parse "Ff" = Some 255%Z
  /\ Int16.parse "+f" = Some 15%Z /\ Int16.parse "-f" = Some (-15)%Z
  /\ Int16.parse " f" = Some 15%Z /\ Int16.parse "0x" = None
  /\ Int16.parse "f_" = None /\ Int16.parse "" = None /\ Int16.parse "g0" = None.
Proof. repeat split; reflexivity. Qed.

(** Characters that are not ASCII, with CPython's tables for them: the
    fullwidth digits U+FF11 and U+FF10 read as [10], the no-break space is
    skipped, a letter with an accent is refused, and a fullwidth digit is no
    letter of the prefix [0x]. *)
Example int16_unicode_examples :
  let fullwidth (d : nat) :=
    String "239" (String "188" (String (ascii_of_nat (144 + d)) EmptyString)) in
  let nbsp := String "194" (String "160" EmptyString) in
  let e_acute := String "195" (String "169" EmptyString) in
  int16 (rt := sample_runtime) (fullwidth 1 +:+ fullwidth 0) = Some 16%Z
  /\ int16 (rt := sample_runtime) ("f" +:+ fullwidth 9) = Some 249%Z
  /\ int16 (rt := sample_runtime) (nbsp +:+ "f") = Some 15%Z
  /\ int16 (rt := sample_runtime) ("f" +:+ nbsp) = Some 15%Z
  /\ int16 (rt := sample_runtime) (nbsp +:+ nbsp) = None
  /\ int16 (rt := sample_runtime) (e_acute +:+ "f") = None
  /\ int16 (rt := sample_runtime) ("1" +:+ e_acute) = None
  /\ int16 (rt := sample_runtime) (fullwidth 0 +:+ "x") = None
  /\ int16 (rt := sample_runtime) ("0x" +:+ fullwidth 1) = Some 1%Z.
Proof. repeat split; reflexivity. Qed.

(** Slices count characters: the third pair of a value that ends with a
    fullwidth digit is that digit, and is read. *)
Example luma_unicode_digits :
  let fullwidth (d : nat) :=
    String "239" (String "188" (String (ascii_of_nat (144 + d)) EmptyString)) in
  let arabic_zero := String "217" (String "160" EmptyString) in
  Utf8.slice 4 6 ("0000" +:+ fullwidth 1) = fullwidth 1
  /\ luma (rt := sample_runtime) ("#0000" +:+ fullwidth 0) = Ok 0%float
  /\ luma (rt := sample_runtime) ("#0000" +:+ fullwidth 1)
     = Ok 0x1.28e41400572d0p-12%float
  /\ luma (rt := sample_runtime)
       (arabic_zero +:+ arabic_zero +:+ arabic_zero
        +:+ arabic_zero +:+ arabic_zero +:+ arabic_zero) = Ok 0%float.
Proof. repeat split; reflexivity. Qed.

Example title_examples :
  Str.title "info" = "Info" /\ Str.title "warning" = "Warning".
Proof. split; reflexivity. Qed.

(** A colour whose luma is 0.5 in exact arithmetic and below it in binary64:
    its roll rule gets the white text. *)
Example luma_rounding {rt : Runtime} :
  luma "#0DA371" = Ok 0x1.ffffffffffffep-2%float
  /\ PrimFloat.ltb 0x1.ffffffffffffep-2 0.5 = true.
Proof. split; reflexivity. Qed.

(** ** The guards of [alert] *)

Section AlertGuards.
Variables (title text level : string) (ID : option string).

Lemma level_ok_iff : level_ok level = true <-> level = "info" \/ level = "warning".
Proof.
  unfold level_ok. rewrite orb_true_iff, !String.eqb_eq. reflexivity.
Qed.

Lemma level_ok_false_iff :
  level_ok level = false <-> level <> "info" /\ level <> "warning".
Proof.
  unfold level_ok. rewrite orb_false_iff, !String.eqb_neq. reflexivity.
Qed.

(** A call with a level that is not recognised raises, whatever the state. *)
Lemma alert_bad_level st :
  level_ok level = false -> alert title text level ID st = (Raise level_error, st).
Proof. intros Hl. unfold alert. rewrite Hl. reflexivity. Qed.

(** A call with a recognised level after the closing script raises. *)
Lemma alert_after_disable st :
  level_ok level = true -> has_disable_been_called st = true ->
  alert title text level ID st = (Raise order_error, st).
Proof.
  intros Hl Hd. unfold alert, bind, get, raise. rewrite Hl. simpl.
  rewrite Hd. reflexivity.
Qed.

(** A call that passes both guards returns the banner of the identifier
    it assigns. *)
Lemma alert_ok st :
  level_ok level = true -> has_disable_been_called st = false ->
  alert title text level ID st =
    match ID with
    | None =>
        (Ok (banner (IntId (numid st)) level title text),
         {| numid := numid st + 1; strid := strid st;
            has_disable_been_called := false |})
    | Some s =>
        (Ok (banner (StrId s) level title text),
         {| numid := numid st; strid := strid st ++ [s];
            has_disable_been_called := false |})
    end.
Proof.
  intros Hl Hd. unfold alert, bind, get. rewrite Hl. simpl. rewrite Hd.
  destruct ID; simpl; unfold assign_id, incr_numid, append_strid, bind, get, put, ret;
    simpl; rewrite Hd; reflexivity.
Qed.

End AlertGuards.

(** C1, as the code has it: once the closing-script generator has run, every
    call of [alert] fails and leaves the registry as it was; the failure is
    the state error when the level is a recognised one, and the value error
    of the level check, which comes first, when it is not. *)
Theorem alert_after_disable_fails (title text level : string) (ID : option string)
    (st : registry) :
  has_disable_been_called st = true ->
  alert title text level ID st =
    (Raise (if level_ok level then order_error else level_error), st).
Proof.
  intros Hd. destruct (level_ok level) eqn:Hl.
  - apply alert_after_disable; assumption.
  - apply alert_bad_level; assumption.
Qed.

Lemma alert_after_disable_fails_witness :
  has_disable_been_called
    {| numid := 2; strid := ["intro"]; has_disable_been_called := true |} = true
  /\ alert "Update" "Read this" "info" None
       {| numid := 2; strid := ["intro"]; has_disable_been_called := true |}
     = (Raise order_error,
        {| numid := 2; strid := ["intro"]; has_disable_been_called := true |}).
Proof.
  split; [reflexivity |].
  exact (alert_after_disable_fails "Update" "Read this" "info" None
           {| numid := 2; strid := ["intro"]; has_disable_been_called := true |}
           eq_refl).
Defined.

(** C1 as stated fails: with the guard flag set and a level that is not
    recognised, the call fails with the value error, not the state error. *)
Lemma alert_after_disable_value_error :
  alert "Update" "Read this" "error" None
    {| numid := 2; strid := ["intro"]; has_disable_been_called := true |}
  = (Raise level_error,
     {| numid := 2; strid := ["intro"]; has_disable_been_called := true |})
  /\ level_error <> order_error.
Proof. split; [reflexivity | discriminate]. Qed.

(** C2: whatever the title, the text, the identifier and the state of the
    registry, a level other than ["info"] and ["warning"] makes [alert] raise
    the value error before anything else happens, and a level that is one of
    the two never leads to a value error. *)
Theorem alert_level_check (title text level : string) (ID : option string)
    (st : registry) :
  (level <> "info" /\ level <> "warning" ->
     alert title text level ID st = (Raise level_error, st))
  /\ (level = "info" \/ level = "warning" ->
     forall msg, fst (alert title text level ID st) <> Raise (ValueError msg)).
Proof.
  split.
  - intros H. apply alert_bad_level, level_ok_false_iff, H.
  - intros H msg. apply level_ok_iff in H.
    destruct (has_disable_been_called st) eqn:Hd.
    + rewrite alert_after_disable by assumption. discriminate.
    + rewrite alert_ok by assumption. destruct ID; discriminate.
Qed.

Lemma alert_level_check_witness :
  alert "Update" "Read this" "error" (Some "intro") registry_init
    = (Raise level_error, registry_init)
  /\ fst (alert "Update" "Read this" "warning" (Some "intro") registry_init)
     <> Raise level_error.
Proof.
  split.
  - apply (proj1 (alert_level_check "Update" "Read this" "error" (Some "intro")
                    registry_init)).
    split; discriminate.
  - apply (proj2 (alert_level_check "Update" "Read this" "warning" (Some "intro")
                    registry_init)).
    right. reflexivity.
Defined.

(** C9: a call of [alert] that fails leaves the counter, the list of string
    identifiers and the guard flag as they were; and a call fails exactly
    when the level is not recognised or the guard flag is set. *)
Theorem alert_failure_atomic (title text level : string) (ID : option string)
    (st st' : registry) (e : exn) :
  alert title text level ID st = (Raise e, st') ->
  st' = st
  /\ numid st' = numid st /\ strid st' = strid st
  /\ has_disable_been_called st' = has_disable_been_called st
  /\ (level_ok level = false \/ has_disable_been_called st = true).
Proof.
  intros H.
  destruct (level_ok level) eqn:Hl.
  - destruct (has_disable_been_called st) eqn:Hd.
    + rewrite alert_after_disable in H by assumption.
      injection H as _ <-. rewrite Hd. auto 6.
    + rewrite alert_ok in H by assumption. destruct ID; discriminate.
  - rewrite alert_bad_level in H by assumption.
    injection H as _ <-. auto 6.
Qed.

Lemma alert_failure_atomic_witness :
  alert "T" "x" "info" (Some "c")
    {| numid := 3; strid := ["a"; "b"]; has_disable_been_called := true |}
  = (Raise order_error,
     {| numid := 3; strid := ["a"; "b"]; has_disable_been_called := true |})
  /\ (level_ok "info" = false \/ true = true).
Proof.
  split; [reflexivity |].
  exact (proj2 (proj2 (proj2 (proj2
           (alert_failure_atomic "T" "x" "info" (Some "c")
              {| numid := 3; strid := ["a"; "b"]; has_disable_been_called := true |}
              _ order_error eq_refl))))).
Defined.

(** A failing call with an unrecognised level, on a registry still open. *)
Example alert_failure_atomic_level :
  alert "T" "x" "danger" None
    {| numid := 3; strid := ["a"]; has_disable_been_called := false |}
  = (Raise level_error,
     {| numid := 3; strid := ["a"]; has_disable_been_called := false |}).
Proof. reflexivity. Qed.

(** ** The closing script and the registry *)

Lemma disable_old_alerts_eq (marker : string) (st : registry) :
  disable_old_alerts marker st =
    (Ok (Textwrap.dedent (script_template marker
           (Str.join ("," +:+ Str.nl +:+ Str.spaces 12)
              (map alert_entry (registered_ids st))))),
     {| numid := numid st; strid := strid st; has_disable_been_called := true |}).
Proof. reflexivity. Qed.

(** C10: [disable_old_alerts] leaves the counter and the list of string
    identifiers as they were and sets the guard flag; a second call with the
    same marker returns the same script and changes nothing more. *)
Theorem disable_old_alerts_idempotent (marker : string) (st : registry) :
  exists out st',
    disable_old_alerts marker st = (Ok out, st')
    /\ numid st' = numid st
    /\ strid st' = strid st
    /\ has_disable_been_called st' = true
    /\ disable_old_alerts marker st' = (Ok out, st').
Proof.
  eexists _, _. split; [apply disable_old_alerts_eq |].
  repeat split; reflexivity.
Qed.

(** ** Strings, lines and containment *)

Section StrFacts.
Import Str.

Lemma app_nil_r (s : string) : s +:+ "" = s.
Proof. induction s as [|c s IH]; simpl; [reflexivity | now rewrite IH]. Qed.

Lemma app_assoc (a b c : string) : (a +:+ b) +:+ c = a +:+ b +:+ c.
Proof. induction a as [|x a IH]; simpl; [reflexivity | now rewrite IH]. Qed.

Lemma contains_refl (s : string) : contains s s.
Proof. exists "", "". simpl. now rewrite app_nil_r. Qed.

Lemma contains_app_l (n a b : string) : contains n a -> contains n (a +:+ b).
Proof.
  intros (pre & post & ->). exists pre, (post +:+ b).
  now rewrite !app_assoc.
Qed.

Lemma contains_app_r (n a b : string) : contains n b -> contains n (a +:+ b).
Proof.
  intros (pre & post & ->). exists (a +:+ pre), post.
  now rewrite !app_assoc.
Qed.

Lemma contains_trans (a b c : string) : contains a b -> contains b c -> contains a c.
Proof.
  intros (p1 & q1 & ->) (p2 & q2 & ->).
  exists (p2 +:+ p1), (q1 +:+ q2). now rewrite !app_assoc.
Qed.

Lemma contains_join (sep l : string) (ls : list string) :
  In l ls -> contains l (join sep ls).
Proof.
  induction ls as [|x ls IH]; [intros [] |].
  intros [-> | Hin]; unfold join in *; simpl; destruct ls as [|y ls].
  - apply contains_refl.
  - apply contains_app_l, contains_refl.
  - destruct Hin.
  - apply contains_app_r, contains_app_r, IH, Hin.
Qed.

Lemma prefix_iff (a b : string) :
  String.prefix a b = true <-> exists r, b = a +:+ r.
Proof.
  revert b. induction a as [|x a IH]; intros b.
  - split; [intros _; now exists b | intros _; now destruct b].
  - destruct b as [|y b]; simpl.
    + split; [discriminate | intros (r & Hr); discriminate].
    + destruct (ascii_dec x y) as [->|Hne].
      * rewrite IH. split; intros (r & Hr); exists r; congruence.
      * split; [discriminate | intros (r & Hr); congruence].
Qed.

Lemma prefix_app (a r : string) : String.prefix a (a +:+ r) = true.
Proof. apply prefix_iff. now exists r. Qed.

Lemma prefix_refl (a : string) : String.prefix a a = true.
Proof. apply prefix_iff. exists "". now rewrite app_nil_r. Qed.

Lemma prefix_trans (a b c : string) :
  String.prefix a b = true -> String.prefix b c = true -> String.prefix a c = true.
Proof.
  rewrite !prefix_iff. intros (r & ->) (r' & ->).
  exists (r +:+ r'). now rewrite app_assoc.
Qed.

Lemma drop_app (a r : string) : drop (String.length a) (a +:+ r) = r.
Proof. induction a as [|x a IH]; simpl; [now destruct r | exact IH]. Qed.

(** [containsb] decides [contains]. *)
Lemma containsb_iff (n h : string) : containsb n h = true <-> contains n h.
Proof.
  induction h as [|c h IH].
  - change (containsb n "") with (String.prefix n "" || false).
    rewrite orb_false_r, prefix_iff. split.
    + intros (r & ->). exists "", r. reflexivity.
    + intros (pre & post & H). destruct pre; [|discriminate].
      exists post. exact H.
  - change (containsb n (String c h))
      with (String.prefix n (String c h) || containsb n h).
    rewrite orb_true_iff, prefix_iff, IH. split.
    + intros [(r & ->) | (pre & post & ->)].
      * exists "", r. reflexivity.
      * exists (String c pre), post. reflexivity.
    + intros (pre & post & H). destruct pre as [|x pre]; simpl in H.
      * left. now exists post.
      * right. injection H as _ ->. now exists pre, post.
Qed.

Lemma containsb_false (n h : string) : containsb n h = false -> ~ contains n h.
Proof. intros Hb Hc. apply containsb_iff in Hc. congruence. Qed.

(** Lines *)

Lemma split_lines_cons (s : string) :
  split_lines s = hd "" (split_lines s) :: tl (split_lines s).
Proof.
  destruct s as [|c s]; simpl; [reflexivity |].
  destruct (Ascii.eqb c nl_char); [reflexivity |].
  destruct (split_lines s); reflexivity.
Qed.

Lemma split_lines_String (c : ascii) (s : string) :
  Ascii.eqb c nl_char = false ->
  split_lines (String c s) = String c (hd "" (split_lines s)) :: tl (split_lines s).
Proof.
  intros Hc. simpl. rewrite Hc. rewrite (split_lines_cons s) at 1. reflexivity.
Qed.

(** A prefix without newline stays on the first line. *)
Lemma split_lines_app (a b : string) :
  one_line a = true ->
  split_lines (a +:+ b) = (a +:+ hd "" (split_lines b)) :: tl (split_lines b).
Proof.
  induction a as [|c a IH]; simpl; intros Ha.
  - apply split_lines_cons.
  - apply andb_true_iff in Ha as [Hc Ha]. apply negb_true_iff in Hc.
    rewrite Hc, (IH Ha). reflexivity.
Qed.

Lemma split_lines_one_line (s : string) : one_line s = true -> split_lines s = [s].
Proof.
  intros Hs. rewrite <- (app_nil_r s) at 1.
  rewrite (split_lines_app s "" Hs). simpl. now rewrite app_nil_r.
Qed.

(** A newline between two texts separates their lines. *)
Lemma split_lines_nl (a b : string) :
  split_lines (a +:+ String nl_char b) = split_lines a ++ split_lines b.
Proof.
  induction a as [|c a IH]; simpl; [reflexivity |].
  destruct (Ascii.eqb c nl_char); rewrite IH; [reflexivity |].
  rewrite (split_lines_cons a). reflexivity.
Qed.

Lemma split_lines_join (p : string) (ps : list string) :
  split_lines (join nl (p :: ps)) = concat (map split_lines (p :: ps)).
Proof.
  revert p. induction ps as [|q ps IH]; intros p.
  - simpl. now rewrite List.app_nil_r.
  - change (join nl (p :: q :: ps)) with (p +:+ String nl_char (join nl (q :: ps))).
    rewrite split_lines_nl, IH. reflexivity.
Qed.

Lemma one_line_app (a b : string) :
  one_line (a +:+ b) = one_line a && one_line b.
Proof.
  induction a as [|c a IH]; simpl; [reflexivity |].
  now rewrite IH, andb_assoc.
Qed.

Lemma one_line_spaces (n : nat) : one_line (spaces n) = true.
Proof. induction n; simpl; auto. Qed.

(** The lines of a re-indented text: every line but the first gets the
    indent. *)
Lemma split_lines_replace (ind t : string) :
  one_line ind = true ->
  split_lines (replace nl_char (nl +:+ ind) t) =
    hd "" (split_lines t) :: map (String.append ind) (tl (split_lines t)).
Proof.
  intros Hind. induction t as [|c t IH]; [reflexivity |].
  simpl. destruct (Ascii.eqb c nl_char) eqn:Hc.
  - simpl. change (String nl_char ind) with (nl +:+ ind). f_equal.
    rewrite (split_lines_app ind _ Hind), IH. simpl.
    rewrite (split_lines_cons t) at 3. reflexivity.
  - change (String nl_char ind) with (nl +:+ ind).
    rewrite (split_lines_String c _ Hc), IH.
    destruct (split_lines t); reflexivity.
Qed.

Lemma split_lines_indented (ind t : string) :
  one_line ind = true ->
  split_lines (ind +:+ replace nl_char (nl +:+ ind) t) =
    map (String.append ind) (split_lines t).
Proof.
  intros Hind. rewrite (split_lines_app ind _ Hind), (split_lines_replace ind t Hind).
  simpl. rewrite (split_lines_cons t) at 3. reflexivity.
Qed.

End StrFacts.

(** ** The margin [textwrap.dedent] removes *)

Section TextwrapFacts.
Import Str Textwrap.

Lemma strip_margin_nil (l : string) : strip_margin "" l = l.
Proof. unfold strip_margin. now destruct l. Qed.

Lemma strip_margin_app (m r : string) : strip_margin m (m +:+ r) = r.
Proof. unfold strip_margin. now rewrite prefix_app, drop_app. Qed.

(** [dedent] with the margin named: no margin and an empty margin remove
    nothing. *)
Lemma dedent_eq (text : string) :
  dedent text =
    join nl (map (strip_margin (margin_str (map normalize (split_lines text))))
               (map normalize (split_lines text))).
Proof.
  unfold dedent, margin_str.
  destruct (margin_of (map normalize (split_lines text))) as [[|c m]|].
  - now rewrite (map_ext _ (fun l => l) strip_margin_nil), map_id.
  - reflexivity.
  - now rewrite (map_ext _ (fun l => l) strip_margin_nil), map_id.
Qed.

Lemma all_blank_app (a b : string) : all_blank (a +:+ b) = all_blank a && all_blank b.
Proof.
  induction a as [|c a IH]; simpl; [reflexivity |].
  now rewrite IH, andb_assoc.
Qed.

Lemma all_blank_spaces (n : nat) : all_blank (spaces n) = true.
Proof. induction n; simpl; auto. Qed.

Lemma normalize_not_blank (l : string) : all_blank l = false -> normalize l = l.
Proof. unfold normalize. now intros ->. Qed.

Lemma nonempty_not_blank (l : string) : all_blank l = false -> nonempty l = true.
Proof. now destruct l. Qed.

Lemma leading_ws_spaces (n : nat) (c : ascii) (r : string) :
  is_blank c = false -> leading_ws (spaces n +:+ String c r) = spaces n.
Proof.
  intros Hc. induction n as [|n IH]; simpl; [now rewrite Hc | now rewrite IH].
Qed.

Lemma leading_ws_app_spaces (n : nat) (r : string) :
  String.prefix (spaces n) (leading_ws (spaces n +:+ r)) = true.
Proof.
  induction n as [|n IH]; simpl.
  - now destruct (leading_ws r).
  - rewrite IH. now destruct (ascii_dec " " " ").
Qed.

Lemma cut_at_diff_prefix (m i : string) : String.prefix (cut_at_diff m i) m = true.
Proof.
  revert i. induction m as [|x m IH]; intros [|y i]; simpl; try reflexivity.
  - destruct (ascii_dec x x); [apply prefix_refl | contradiction].
  - destruct (Ascii.eqb x y); simpl; [|reflexivity].
    destruct (ascii_dec x x); [apply IH | contradiction].
Qed.

(** A turn of the loop never lengthens the margin. *)
Lemma next_margin_prefix (m i : string) :
  exists m', next_margin (Some m) i = Some m' /\ String.prefix m' m = true.
Proof.
  unfold next_margin.
  destruct (String.prefix m i) eqn:H1; [eauto using prefix_refl |].
  destruct (String.prefix i m) eqn:H2; [eauto |].
  eauto using cut_at_diff_prefix.
Qed.

Lemma fold_margin_prefix (inds : list string) (m : string) :
  exists m', fold_left next_margin inds (Some m) = Some m'
             /\ String.prefix m' m = true.
Proof.
  revert m. induction inds as [|i inds IH]; intros m; cbn [fold_left].
  - eauto using prefix_refl.
  - destruct (next_margin_prefix m i) as (m1 & -> & H1).
    destruct (IH m1) as (m2 & -> & H2). eauto using prefix_trans.
Qed.

(** Indents that all start with the margin leave it as it is. *)
Lemma fold_margin_exact (inds : list string) (m : string) :
  Forall (fun i => String.prefix m i = true) inds ->
  fold_left next_margin inds (Some m) = Some m.
Proof.
  induction 1 as [|i inds Hi _ IH]; cbn [fold_left]; [reflexivity |].
  unfold next_margin at 2. now rewrite Hi.
Qed.

Lemma margin_of_cons (l : string) (ls : list string) :
  nonempty l = true ->
  margin_of (l :: ls) = fold_left next_margin (indents ls) (Some (leading_ws l)).
Proof. intros Hl. unfold margin_of, indents. cbn [List.filter]. now rewrite Hl. Qed.

(** The margin is a prefix of the indent of a first line that is not
    blank. *)
Lemma margin_str_first (l : string) (ls : list string) :
  all_blank l = false ->
  String.prefix (margin_str (map normalize (l :: ls))) (leading_ws l) = true.
Proof.
  intros Hl. unfold margin_str. simpl map.
  rewrite (normalize_not_blank l Hl), margin_of_cons by now apply nonempty_not_blank.
  destruct (fold_margin_prefix (indents (map normalize ls)) (leading_ws l))
    as (m' & -> & Hm). exact Hm.
Qed.

(** What follows the indent of the first line, on any line indented at
    least as much, is in the result. *)
Lemma dedent_contains (text : string) (n : nat) (c : ascii) (r rest : string) :
  is_blank c = false ->
  hd "" (split_lines text) = spaces n +:+ String c r ->
  In (spaces n +:+ rest) (split_lines text) ->
  all_blank rest = false ->
  contains rest (dedent text).
Proof.
  intros Hc Hhd Hin Hrest. rewrite dedent_eq.
  rewrite (split_lines_cons text) in *. simpl in Hhd.
  set (lines := hd "" (split_lines text) :: tl (split_lines text)) in *.
  assert (Hm : String.prefix (margin_str (map normalize lines)) (spaces n) = true).
  { subst lines. rewrite Hhd. rewrite <- (leading_ws_spaces n c r Hc) at 2.
    apply margin_str_first.
    rewrite all_blank_app. simpl. rewrite Hc. now rewrite andb_false_r. }
  apply prefix_iff in Hm as (pad & Hpad).
  apply contains_trans with (b := pad +:+ rest).
  - apply contains_app_r, contains_refl.
  - apply contains_join, in_map_iff.
    exists (spaces n +:+ rest). split.
    + rewrite Hpad at 1. rewrite app_assoc. apply strip_margin_app.
    + apply in_map_iff. exists (spaces n +:+ rest). split; [|exact Hin].
      apply normalize_not_blank. rewrite all_blank_app, Hrest.
      apply andb_false_r.
Qed.

End TextwrapFacts.

(** ** What a banner holds *)

Section BannerFacts.
Import Str Textwrap.

Lemma one_line_string_of_uint (d : Decimal.uint) :
  one_line (NilEmpty.string_of_uint d) = true.
Proof. induction d; simpl; auto. Qed.

Lemma one_line_format_id (i : alert_id) :
  match i with IntId _ => True | StrId s => one_line s = true end ->
  one_line (format_id i) = true.
Proof. destruct i; simpl; [intros _; apply one_line_string_of_uint | auto]. Qed.

Lemma one_line_hidden_input (i : alert_id) :
  one_line (format_id i) = true -> one_line (hidden_input i) = true.
Proof.
  intros Hi. unfold hidden_input, quoted.
  rewrite !one_line_app, Hi. reflexivity.
Qed.

Lemma one_line_title_level (level : string) :
  level_ok level = true -> one_line (title level) = true.
Proof. intros [-> | ->]%level_ok_iff; reflexivity. Qed.

Variables (i : alert_id) (level ttl text : string).

(** The lines of the template are those of its ten parts. *)
Lemma template_lines_in (k : nat) (part l : string) :
  nth_error
    [ spaces 8 +:+ hidden_input i;
      spaces 8 +:+ "<div class=" +:+ quoted ("alert alert-" +:+ level) +:+ ">";
      spaces 12 +:+ "<div>";
      spaces 16 +:+ "<h3> " +:+ title level +:+ " - " +:+ ttl +:+ "</h3>";
      spaces 16 +:+ text ] k = Some part ->
  In l (split_lines part) ->
  In l (split_lines (alert_template i level ttl text)).
Proof.
  intros Hk Hl. unfold alert_template. rewrite split_lines_join.
  apply in_concat. exists (split_lines part). split; [|exact Hl].
  apply in_map. do 5 (destruct k as [|k]; [injection Hk as <-; simpl; tauto |]).
  destruct k; discriminate.
Qed.

(** The first line of the template opens the hidden input after eight
    spaces. *)
Lemma template_first_line :
  exists r, hd "" (split_lines (alert_template i level ttl text))
            = spaces 8 +:+ String "<" r.
Proof.
  unfold alert_template. rewrite split_lines_join. cbn [map concat].
  match goal with |- context [split_lines ?p ++ ?rest] =>
    rewrite (split_lines_cons p); cbn [app hd];
    change p with ((spaces 8 +:+ "<") +:+
      ("input type=" +:+ quoted "hidden" +:+ " class=" +:+ quoted "alert-hidder"
       +:+ " name=" +:+ quoted ("attr_alert-" +:+ format_id i)
       +:+ " value=" +:+ quoted "0" +:+ "/>"))
  end.
  rewrite split_lines_app by reflexivity. cbn [hd]. eexists. reflexivity.
Qed.

(** What stands after the first eight spaces of a line of the template
    is in the banner. *)
Lemma template_line_in_result (rest : string) :
  In (spaces 8 +:+ rest) (split_lines (alert_template i level ttl text)) ->
  all_blank rest = false ->
  contains rest (dedent (alert_template i level ttl text)).
Proof.
  destruct template_first_line as (r & Hr). intros Hin Hrest.
  exact (dedent_contains _ 8 "<" r rest eq_refl Hr Hin Hrest).
Qed.

Lemma result_has_title :
  level_ok level = true -> one_line ttl = true ->
  contains ttl (dedent (alert_template i level ttl text)).
Proof.
  intros Hl Ht.
  apply contains_trans with
    (b := spaces 8 +:+ "<h3> " +:+ title level +:+ " - " +:+ ttl +:+ "</h3>").
  { do 4 apply contains_app_r. apply contains_app_l, contains_refl. }
  apply template_line_in_result; [|reflexivity].
  apply (template_lines_in 3 _ _ eq_refl).
  rewrite split_lines_one_line; [now left |].
  rewrite !one_line_app, Ht, (one_line_title_level level Hl). reflexivity.
Qed.

End BannerFacts.

Section BannerText.
Import Str Textwrap.
Variables (i : alert_id) (level ttl text : string).

(** Every line of the text that is not blank is in the banner. *)
Lemma banner_has_text_line (l : string) :
  In l (split_lines text) -> all_blank l = false ->
  contains l (banner i level ttl text).
Proof.
  intros Hin Hl. unfold banner.
  apply contains_trans with (b := spaces 8 +:+ l).
  { apply contains_app_r, contains_refl. }
  apply template_line_in_result.
  - apply (template_lines_in _ _ _ _ 4 _ _ eq_refl).
    change (4 * 4) with 16.
    rewrite split_lines_indented by reflexivity.
    apply in_map_iff. exists l. split; [reflexivity | exact Hin].
  - rewrite all_blank_app, Hl. reflexivity.
Qed.

Lemma banner_has_text :
  one_line text = true -> all_blank text = false ->
  contains text (banner i level ttl text).
Proof.
  intros H1 Hb. apply banner_has_text_line; [|exact Hb].
  rewrite (split_lines_one_line text H1). now left.
Qed.

Lemma banner_has_title :
  level_ok level = true -> one_line ttl = true ->
  contains ttl (banner i level ttl text).
Proof. intros. unfold banner. now apply result_has_title. Qed.

End BannerText.

(** ** Sequences of calls *)

Section Runs.

(** Calls with recognised levels on an open registry all succeed: the
    banners are those of the identifiers assigned, the counter has grown
    by the number of calls without [ID], and the given identifiers have
    been appended in the order of the calls. *)
Lemma run_alerts_ok (calls : list call) : forall st,
  has_disable_been_called st = false ->
  Forall valid_call calls ->
  run_alerts calls st =
    (Ok (banners_of (assigned_ids (numid st) calls) calls),
     {| numid := numid st + auto_count calls;
        strid := strid st ++ explicit_ids calls;
        has_disable_been_called := false |}).
Proof.
  induction calls as [|c calls IH]; intros st Hd Hv.
  - simpl. unfold ret. destruct st; simpl in *; subst.
    now rewrite Nat.add_0_r, List.app_nil_r.
  - inversion Hv as [|? ? Hc Hrest]; subst.
    apply level_ok_iff in Hc.
    cbn [run_alerts]. unfold bind at 1.
    rewrite (alert_ok _ _ _ _ st Hc Hd).
    destruct (call_ID c) as [s|] eqn:HID; cbn [assigned_ids explicit_ids auto_count];
      rewrite HID; unfold bind at 1; rewrite IH by (auto || reflexivity);
      unfold ret; cbn [numid strid banners_of].
    + now rewrite <- List.app_assoc.
    + rewrite Nat.add_1_r, Nat.add_succ_r. reflexivity.
Qed.

Lemma assigned_ids_auto (calls : list call) : forall n,
  Forall (fun c => call_ID c = None) calls ->
  assigned_ids n calls = map IntId (seq n (length calls)).
Proof.
  induction calls as [|c calls IH]; intros n Hn; [reflexivity |].
  inversion Hn as [|? ? Hc Hrest]; subst. simpl. rewrite Hc, IH by assumption.
  reflexivity.
Qed.

Lemma auto_count_auto (calls : list call) :
  Forall (fun c => call_ID c = None) calls ->
  auto_count calls = length calls /\ explicit_ids calls = [].
Proof.
  induction 1 as [|c calls Hc _ [IH1 IH2]]; [now split |].
  simpl. rewrite Hc, IH1, IH2. now split.
Qed.

Lemma banners_of_nth (calls : list call) : forall ids k i c,
  nth_error ids k = Some i ->
  nth_error calls k = Some c ->
  nth_error (banners_of ids calls) k =
    Some (banner i (call_level c) (call_title c) (call_text c)).
Proof.
  induction calls as [|c0 calls IH]; intros ids k i c Hi Hc.
  - now destruct k.
  - destruct ids as [|i0 ids]; [now destruct k |].
    destruct k as [|k]; simpl in *.
    + now injection Hi as ->; injection Hc as ->.
    + eauto.
Qed.

(** Two numbers are not written the same. *)
Lemma of_nat_inj (a b : nat) : Str.of_nat a = Str.of_nat b -> a = b.
Proof.
  unfold Str.of_nat. intros H.
  apply (f_equal NilEmpty.uint_of_string) in H. rewrite !NilEmpty.usu in H.
  injection H as H. now apply DecimalNat.Unsigned.to_uint_inj.
Qed.


Lemma length_banners_of (calls : list call) : forall ids,
  length ids = length calls -> length (banners_of ids calls) = length calls.
Proof.
  induction calls as [|c calls IH]; intros [|i ids] H; try discriminate; [reflexivity |].
  simpl in *. now rewrite IH by lia.
Qed.

Lemma all_blank_forallb (t : string) :
  Textwrap.all_blank t
  = forallb (fun c => Ascii.eqb c " " || Ascii.eqb c "009") (list_ascii_of_string t).
Proof. induction t as [|c t IH]; simpl; [reflexivity | now rewrite IH]. Qed.

End Runs.

(** ** The closing script, line by line *)

Section ScriptFacts.
Import Str Textwrap.

Lemma strip_normalize (n : nat) (x : string) :
  strip_margin (spaces n) (normalize (spaces n +:+ x))
  = if all_blank x then "" else x.
Proof.
  unfold normalize. rewrite all_blank_app, all_blank_spaces. simpl.
  destruct (all_blank x).
  - unfold strip_margin. destruct (String.prefix (spaces n) ""); [|reflexivity].
    now destruct (String.length (spaces n)).
  - apply strip_margin_app.
Qed.

Lemma indents_indented (n : nat) (rs : list string) :
  Forall (fun i => String.prefix (spaces n) i = true)
    (indents (map normalize (map (String.append (spaces n)) rs))).
Proof.
  induction rs as [|x rs IH]; [constructor |].
  unfold indents in *. cbn [map List.filter].
  destruct (all_blank (spaces n +:+ x)) eqn:Hb.
  - unfold normalize at 1. rewrite Hb. exact IH.
  - rewrite (normalize_not_blank _ Hb), (nonempty_not_blank _ Hb).
    cbn [map]. constructor; [|exact IH].
    apply leading_ws_app_spaces.
Qed.

(** A text whose lines all start with [n] spaces, the first of them with
    exactly [n], loses those [n] spaces on every line; the lines that hold
    nothing else are emptied. *)
Lemma dedent_indented_lines (text : string) (n : nat) (c : ascii) (r : string)
    (rs : list string) :
  is_blank c = false ->
  split_lines text = map (String.append (spaces n)) (String c r :: rs) ->
  dedent text = join nl (map (fun l => if all_blank l then "" else l) (String c r :: rs)).
Proof.
  intros Hc Hlines. rewrite dedent_eq, Hlines.
  assert (Hm : margin_str (map normalize (map (String.append (spaces n)) (String c r :: rs)))
               = spaces n).
  { unfold margin_str. cbn [map].
    assert (Hb : all_blank (spaces n +:+ String c r) = false).
    { rewrite all_blank_app. simpl. rewrite Hc. apply andb_false_r. }
    rewrite (normalize_not_blank _ Hb), margin_of_cons by now apply nonempty_not_blank.
    rewrite (leading_ws_spaces n c r Hc).
    now rewrite (fold_margin_exact _ _ (indents_indented n rs)). }
  rewrite Hm, !map_map. f_equal. apply map_ext. intros x. apply strip_normalize.
Qed.






End ScriptFacts.

(** ** The banner, line by line *)

Section BannerLayout.
Import Str Textwrap.

Lemma replace_one_line (ind t : string) :
  one_line t = true -> replace nl_char ind t = t.
Proof.
  induction t as [|c t IH]; [reflexivity |].
  simpl. intros [Hc Ht]%andb_true_iff. apply negb_true_iff in Hc.
  now rewrite Hc, (IH Ht).
Qed.

Lemma all_blank_one_line (t : string) : all_blank t = true -> one_line t = true.
Proof.
  induction t as [|c t IH]; [reflexivity |].
  simpl. intros [Hc Ht]%andb_true_iff. rewrite (IH Ht), andb_true_r.
  unfold is_blank in Hc. apply orb_true_iff in Hc as [Hc | Hc];
    apply Ascii.eqb_eq in Hc; subst c; reflexivity.
Qed.

(** Texts with the same lines, blank ones apart, have the same result. *)
Lemma dedent_same_lines (a b : string) :
  map normalize (split_lines a) = map normalize (split_lines b) ->
  dedent a = dedent b.
Proof. intros H. now rewrite !dedent_eq, H. Qed.

Lemma alert_template_lines (i : alert_id) (level ttl text : string) :
  level_ok level = true -> one_line ttl = true -> one_line (format_id i) = true ->
  split_lines (alert_template i level ttl
                 (replace nl_char (nl +:+ spaces 16) text))
  = map (String.append (spaces 8))
      ([ hidden_input i;
         "<div class=" +:+ quoted ("alert alert-" +:+ level) +:+ ">";
         spaces 4 +:+ "<div>";
         spaces 8 +:+ "<h3> " +:+ title level +:+ " - " +:+ ttl +:+ "</h3>" ]
       ++ map (String.append (spaces 8)) (split_lines text)
       ++ [ spaces 4 +:+ "</div>";
            spaces 4 +:+ "<label class=" +:+ quoted "fakebutton" +:+ ">";
            spaces 8 +:+ "<input type=" +:+ quoted "checkbox"
              +:+ " name=" +:+ quoted ("attr_alert-" +:+ format_id i)
              +:+ " value=" +:+ quoted "1" +:+ " /> "
              +:+ String "195"%char (String "151"%char EmptyString);
            spaces 4 +:+ "</label>";
            "</div>" ]).
Proof.
  intros Hl Ht Hi. pose proof (one_line_title_level level Hl) as Htl.
  assert (Hlv : one_line level = true)
    by (apply level_ok_iff in Hl as [-> | ->]; reflexivity).
  unfold alert_template. rewrite split_lines_join. cbn [map concat].
  rewrite (split_lines_indented (spaces 16) text eq_refl).
  repeat match goal with
  | |- context [split_lines ?p ++ _] =>
      rewrite (split_lines_one_line p)
        by (unfold quoted; rewrite ?one_line_app, ?Hi, ?Ht, ?Htl, ?Hlv; reflexivity)
  end.
  rewrite List.app_nil_r, !map_app, map_map. reflexivity.
Qed.

(** The banner of a title and an identifier that hold no newline, line by
    line. *)
Lemma banner_is_lines (i : alert_id) (level ttl text : string) :
  level_ok level = true -> one_line ttl = true -> one_line (format_id i) = true ->
  banner i level ttl text = join nl (banner_lines i level ttl text).
Proof.
  intros Hl Ht Hi. unfold banner. change (4 * 4) with 16.
  rewrite (dedent_indented_lines _ 8 "<"
             ("input type=" +:+ quoted "hidden" +:+ " class="
              +:+ quoted "alert-hidder" +:+ " name="
              +:+ quoted ("attr_alert-" +:+ format_id i)
              +:+ " value=" +:+ quoted "0" +:+ "/>") _ eq_refl
             (alert_template_lines i level ttl text Hl Ht Hi)).
  unfold banner_lines. f_equal. cbn [map app].
  do 4 (apply (f_equal2 cons); [reflexivity |]).
  rewrite map_app, map_map. apply (f_equal2 (@app string)); [| reflexivity].
  apply map_ext. intros t. rewrite all_blank_app. reflexivity.
Qed.

(** Spaces, written with the functions of the standard library. *)
Lemma spaces_written (n : nat) :
  spaces n = string_of_list_ascii (repeat " "%char n).
Proof. induction n as [|n IH]; simpl; [reflexivity | now rewrite IH]. Qed.

Lemma spaces_app_inv (n : nat) : forall a b,
  spaces n = a +:+ b -> exists k, k <= n /\ b = spaces k.
Proof.
  induction n as [|n IH]; intros a b H.
  - destruct a; [|discriminate]. simpl in H. subst b. exists 0. split; [lia | reflexivity].
  - destruct a as [|c a].
    + simpl in H. subst b. exists (S n). split; [lia | reflexivity].
    + simpl in H. injection H as _ H. destruct (IH a b H) as (k & Hk & ->).
      exists k. split; [lia | reflexivity].
Qed.

(** The first line of a text loses at most its own indent, and keeps what
    follows it. *)
Lemma dedent_first_line (text : string) (n : nat) (c : ascii) (r l2 : string)
    (ls : list string) :
  is_blank c = false ->
  split_lines text = (spaces n +:+ String c r) :: l2 :: ls ->
  exists k rest,
    k <= n /\ dedent text = spaces k +:+ String c r +:+ nl +:+ rest.
Proof.
  intros Hc Hlines. rewrite dedent_eq, Hlines.
  assert (Hb : all_blank (spaces n +:+ String c r) = false).
  { rewrite all_blank_app. simpl. rewrite Hc. apply andb_false_r. }
  pose proof (margin_str_first (spaces n +:+ String c r) (l2 :: ls) Hb) as Hm.
  rewrite (leading_ws_spaces n c r Hc) in Hm.
  apply prefix_iff in Hm as (pad & Hpad).
  destruct (spaces_app_inv n _ _ Hpad) as (k & Hk & ->).
  set (m := margin_str (map normalize ((spaces n +:+ String c r) :: l2 :: ls))) in *.
  exists k, (join nl (map (strip_margin m) (map normalize (l2 :: ls)))).
  split; [exact Hk |].
  cbn [map]. rewrite (normalize_not_blank _ Hb).
  rewrite Hpad at 1. rewrite app_assoc, strip_margin_app.
  rewrite <- app_assoc. reflexivity.
Qed.

(** The template opens with the hidden input on a line of its own, and has
    more lines. *)
Lemma template_head (i : alert_id) (level ttl text : string) :
  one_line (format_id i) = true ->
  exists l2 ls,
    split_lines (alert_template i level ttl text)
    = (spaces 8 +:+ hidden_input i) :: l2 :: ls.
Proof.
  intros Hi. unfold alert_template. rewrite split_lines_join. cbn [map concat].
  change (spaces 8 +:+ "<input type=" +:+ quoted "hidden" +:+ " class="
          +:+ quoted "alert-hidder" +:+ " name="
          +:+ quoted ("attr_alert-" +:+ format_id i) +:+ " value="
          +:+ quoted "0" +:+ "/>")
    with (spaces 8 +:+ hidden_input i).
  rewrite (split_lines_one_line (spaces 8 +:+ hidden_input i))
    by (rewrite one_line_app, one_line_hidden_input by exact Hi; reflexivity).
  match goal with |- context [[_] ++ split_lines ?p ++ ?rest] =>
    rewrite (split_lines_cons p)
  end.
  cbn [app]. eexists _, _. reflexivity.
Qed.

(** Whatever the title and the text, the banner opens with the hidden input
    of its identifier, behind eight spaces at most. *)
Lemma banner_first_line (i : alert_id) (level ttl text : string) :
  one_line (format_id i) = true ->
  exists k rest,
    k <= 8 /\ banner i level ttl text = spaces k +:+ hidden_input i +:+ nl +:+ rest.
Proof.
  intros Hi. unfold banner.
  destruct (template_head i level ttl
              (replace nl_char (nl +:+ spaces (4 * 4)) text) Hi) as (l2 & ls & Hlines).
  exact (dedent_first_line _ 8 "<" _ l2 ls eq_refl Hlines).
Qed.

(** The hidden input and the lines of the banner, character by
    character. *)
Lemma hidden_input_written (i : alert_id) :
  hidden_input i
  = "<input type=" +:+ dq +:+ "hidden" +:+ dq
    +:+ " class=" +:+ dq +:+ "alert-hidder" +:+ dq
    +:+ " name=" +:+ dq +:+ "attr_alert-" +:+ format_id i +:+ dq
    +:+ " value=" +:+ dq +:+ "0" +:+ dq +:+ "/>".
Proof. unfold hidden_input, quoted. rewrite !app_assoc. reflexivity. Qed.

Lemma banner_lines_written (i : alert_id) (level ttl text : string) :
  level_ok level = true ->
  banner_lines i level ttl text
  = [ "<input type=" +:+ dq +:+ "hidden" +:+ dq
        +:+ " class=" +:+ dq +:+ "alert-hidder" +:+ dq
        +:+ " name=" +:+ dq +:+ "attr_alert-" +:+ format_id i +:+ dq
        +:+ " value=" +:+ dq +:+ "0" +:+ dq +:+ "/>";
      "<div class=" +:+ dq +:+ "alert alert-" +:+ level +:+ dq +:+ ">";
      "    <div>";
      "        <h3> " +:+ (if String.eqb level "info" then "Info" else "Warning")
        +:+ " - " +:+ ttl +:+ "</h3>" ]
    ++ map (fun t => if all_blank t then EmptyString else "        " +:+ t)
         (split_lines text)
    ++ [ "    </div>";
         "    <label class=" +:+ dq +:+ "fakebutton" +:+ dq +:+ ">";
         "        <input type=" +:+ dq +:+ "checkbox" +:+ dq
           +:+ " name=" +:+ dq +:+ "attr_alert-" +:+ format_id i +:+ dq
           +:+ " value=" +:+ dq +:+ "1" +:+ dq +:+ " /> "
           +:+ String "195"%char (String "151"%char EmptyString);
         "    </label>";
         "</div>" ].
Proof.
  intros Hl. unfold banner_lines. rewrite hidden_input_written.
  apply level_ok_iff in Hl as [-> | ->]; unfold quoted;
    rewrite !app_assoc; reflexivity.
Qed.

End BannerLayout.

(** ** What the closing script lists *)

Section Listing.







End Listing.

(** C3: from the initial registry (counter 0, no string identifier, flag
    unset), [N] calls of [alert] without [ID] and with recognised levels all
    succeed, leave the counter at [N], and are given the identifiers [0],
    [1], ..., [N-1] in the order of the calls.  The banner of the call of rank
    [k] opens, behind eight spaces at most, with the line of the hidden
    input whose name is [attr_alert-] followed by the decimal digits of [k];
    with a title on one line there is no space before it.  Two different
    numbers are never written with the same digits. *)
Theorem auto_ids_sequential (calls : list call) :
  Forall (fun c => valid_call c /\ call_ID c = None) calls ->
  let N := length calls in
  let q := String "034"%char EmptyString in
  let nl := String "010"%char EmptyString in
  let decimal (k : nat) := NilEmpty.string_of_uint (Nat.to_uint k) in
  let hidden (w : string) :=
    "<input type=" +:+ q +:+ "hidden" +:+ q +:+ " class=" +:+ q +:+ "alert-hidder" +:+ q
    +:+ " name=" +:+ q +:+ "attr_alert-" +:+ w +:+ q
    +:+ " value=" +:+ q +:+ "0" +:+ q +:+ "/>" in
  exists banners,
    run_alerts calls {| numid := 0; strid := []; has_disable_been_called := false |}
    = (Ok banners, {| numid := N; strid := []; has_disable_been_called := false |})
    /\ length banners = N
    /\ assigned_ids 0 calls = map IntId (seq 0 N)
    /\ (forall k, k < N ->
          exists b n rest,
            nth_error banners k = Some b
            /\ n <= 8
            /\ b = string_of_list_ascii (repeat " "%char n)
                   +:+ hidden (decimal k) +:+ nl +:+ rest)
    /\ (forall k c, nth_error calls k = Some c -> Str.one_line (call_title c) = true ->
          exists rest, nth_error banners k = Some (hidden (decimal k) +:+ nl +:+ rest))
    /\ (forall j k, decimal j = decimal k -> j = k).
Proof.
  intros Hall N q nl decimal hidden.
  assert (Hv : Forall valid_call calls)
    by (eapply List.Forall_impl; [|exact Hall]; intros ? [? ?]; assumption).
  assert (Hn : Forall (fun c => call_ID c = None) calls)
    by (eapply List.Forall_impl; [|exact Hall]; intros ? [? ?]; assumption).
  pose proof (assigned_ids_auto calls 0 Hn) as Hids.
  destruct (auto_count_auto calls Hn) as [Hcount Hexp].
  assert (Hnth : forall k c, nth_error calls k = Some c ->
            nth_error (banners_of (map IntId (seq 0 N)) calls) k
            = Some (banner (IntId k) (call_level c) (call_title c) (call_text c))).
  { intros k c Hk. apply banners_of_nth; [|exact Hk].
    assert (Hlt : k < N) by (apply nth_error_Some; congruence).
    rewrite nth_error_map, nth_error_seq.
    destruct (Nat.ltb_spec k N); [reflexivity | lia]. }
  exists (banners_of (map IntId (seq 0 N)) calls).
  split.
  { pose proof (run_alerts_ok calls registry_init eq_refl Hv) as Hrun.
    cbn [numid strid registry_init] in Hrun.
    rewrite Hids, Hcount, Hexp in Hrun. exact Hrun. }
  split.
  { apply length_banners_of. now rewrite length_map, length_seq. }
  split; [exact Hids |].
  split; [|split].
  - intros k Hk.
    destruct (nth_error calls k) as [c|] eqn:Hc;
      [|apply nth_error_None in Hc; unfold N in Hk; lia].
    destruct (banner_first_line (IntId k) (call_level c) (call_title c) (call_text c)
                (one_line_string_of_uint _)) as (n & rest & Hle & Hb).
    exists (banner (IntId k) (call_level c) (call_title c) (call_text c)), n, rest.
    split; [exact (Hnth k c Hc) |]. split; [exact Hle |].
    rewrite Hb, spaces_written, hidden_input_written. reflexivity.
  - intros k c Hc Ht. rewrite (Hnth k c Hc).
    assert (Hl : level_ok (call_level c) = true).
    { apply level_ok_iff. rewrite List.Forall_forall in Hv.
      exact (Hv c (nth_error_In _ _ Hc)). }
    rewrite (banner_is_lines (IntId k) _ _ _ Hl Ht (one_line_string_of_uint _)).
    unfold banner_lines. rewrite hidden_input_written. cbn [app].
    eexists. reflexivity.
  - intros j k. apply of_nat_inj.
Qed.

Lemma auto_ids_sequential_witness :
  let q := String "034"%char EmptyString in
  let nl := String "010"%char EmptyString in
  let calls := [ mkCall "Update" "Read this" "info" None;
                 mkCall "Warning" "Data moved" "warning" None;
                 mkCall "Note" "" "info" None ] in
  Forall (fun c => valid_call c /\ call_ID c = None) calls
  /\ exists banners rest,
       run_alerts calls {| numid := 0; strid := []; has_disable_been_called := false |}
       = (Ok banners, {| numid := 3; strid := []; has_disable_been_called := false |})
       /\ nth_error banners 2
          = Some ("<input type=" +:+ q +:+ "hidden" +:+ q
                  +:+ " class=" +:+ q +:+ "alert-hidder" +:+ q
                  +:+ " name=" +:+ q +:+ "attr_alert-2" +:+ q
                  +:+ " value=" +:+ q +:+ "0" +:+ q +:+ "/>" +:+ nl +:+ rest).
Proof.
  intros q nl calls.
  assert (H : Forall (fun c => valid_call c /\ call_ID c = None) calls).
  { unfold calls, valid_call.
    repeat (apply List.Forall_cons;
            [split; [first [left; reflexivity | right; reflexivity] | reflexivity] |]).
    apply List.Forall_nil. }
  split; [exact H |].
  destruct (auto_ids_sequential calls H) as (banners & Hrun & _ & _ & _ & Hline & _).
  destruct (Hline 2 (mkCall "Note" "" "info" None) eq_refl eq_refl) as (rest & Hb).
  exists banners, rest. split; [exact Hrun | exact Hb].
Defined.

(** C8, as the code has it: a call of [alert] with a recognised level on an
    open registry, a title on one line and an identifier that is omitted or
    on one line returns the banner written out below: the hidden input whose
    name is [attr_alert-] followed by the identifier (the decimal digits of
    the counter when [ID] is omitted, the given string otherwise), the
    heading with the title, the lines of the text each behind eight spaces
    (those made of blanks only emptied), and the checkbox of the same name.
    So the banner holds the title, every line of the text that is not made of
    blanks only, and the text itself when it is one such line.  The
    identifier is registered: the counter grows by one or the string is
    appended.  It is not checked against the identifiers given before: the
    number of a call without [ID] is written unlike every number given
    before it, and is new among all the identifiers written so far exactly
    when no earlier call was given its digits as [ID]. *)
Theorem alert_banner_contents (title text level : string) (ID : option string)
    (st : registry) :
  level = "info" \/ level = "warning" ->
  has_disable_been_called st = false ->
  Str.one_line title = true ->
  match ID with Some s => Str.one_line s = true | None => True end ->
  let q := String "034"%char EmptyString in
  let nl := String "010"%char EmptyString in
  let decimal (k : nat) := NilEmpty.string_of_uint (Nat.to_uint k) in
  let written := match ID with None => decimal (numid st) | Some s => s end in
  let earlier := map decimal (seq 0 (numid st)) ++ strid st in
  exists out st',
    alert title text level ID st = (Ok out, st')
    /\ out = String.concat nl
         ([ "<input type=" +:+ q +:+ "hidden" +:+ q
              +:+ " class=" +:+ q +:+ "alert-hidder" +:+ q
              +:+ " name=" +:+ q +:+ "attr_alert-" +:+ written +:+ q
              +:+ " value=" +:+ q +:+ "0" +:+ q +:+ "/>";
            "<div class=" +:+ q +:+ "alert alert-" +:+ level +:+ q +:+ ">";
            "    <div>";
            "        <h3> " +:+ (if String.eqb level "info" then "Info" else "Warning")
              +:+ " - " +:+ title +:+ "</h3>" ]
          ++ map (fun t => if forallb (fun c => Ascii.eqb c " " || Ascii.eqb c "009")
                                (list_ascii_of_string t)
                           then EmptyString else "        " +:+ t)
               (Str.split_lines text)
          ++ [ "    </div>";
               "    <label class=" +:+ q +:+ "fakebutton" +:+ q +:+ ">";
               "        <input type=" +:+ q +:+ "checkbox" +:+ q
                 +:+ " name=" +:+ q +:+ "attr_alert-" +:+ written +:+ q
                 +:+ " value=" +:+ q +:+ "1" +:+ q +:+ " /> "
                 +:+ String "195"%char (String "151"%char EmptyString);
               "    </label>";
               "</div>" ])
    /\ (exists pre post, out = pre +:+ title +:+ post)
    /\ (forall l, In l (Str.split_lines text) -> Textwrap.all_blank l = false ->
          exists pre post, out = pre +:+ l +:+ post)
    /\ (Str.one_line text = true -> Textwrap.all_blank text = false ->
          exists pre post, out = pre +:+ text +:+ post)
    /\ st' = match ID with
             | None => {| numid := numid st + 1; strid := strid st;
                          has_disable_been_called := false |}
             | Some s => {| numid := numid st; strid := strid st ++ [s];
                            has_disable_been_called := false |}
             end
    /\ (ID = None ->
        (forall n, n < numid st -> decimal n <> written)
        /\ (In written earlier <-> In written (strid st))).
Proof.
  intros Hl Hd Ht HID q nl decimal written earlier. apply level_ok_iff in Hl.
  set (id := match ID with None => IntId (numid st) | Some s => StrId s end).
  assert (Hw : format_id id = written) by (subst id written; now destruct ID).
  assert (Hi : Str.one_line (format_id id) = true).
  { apply one_line_format_id. subst id. now destruct ID. }
  exists (banner id level title text), (snd (alert title text level ID st)).
  rewrite (alert_ok title text level ID st Hl Hd).
  split; [subst id; destruct ID; reflexivity |].
  split.
  { rewrite (banner_is_lines id level title text Hl Ht Hi).
    rewrite (banner_lines_written id level title text Hl), Hw.
    unfold Str.join. do 2 f_equal. apply (f_equal2 (@app string)); [|reflexivity].
    apply map_ext. intros t. now rewrite all_blank_forallb. }
  split; [now apply banner_has_title |].
  split; [intros l; apply banner_has_text_line |].
  split; [apply banner_has_text |].
  split; [destruct ID; reflexivity |].
  intros ->. subst written earlier. split.
  - intros n Hn Heq. apply of_nat_inj in Heq. lia.
  - rewrite in_app_iff, in_map_iff. split; [|now right].
    intros [(n & Heq & Hin) | Hin]; [|exact Hin].
    apply of_nat_inj in Heq. apply in_seq in Hin. lia.
Qed.

(** A call without [ID] that finds the counter at 12 and three identifiers
    given. *)
Lemma alert_banner_contents_witness :
  let q := String "034"%char EmptyString in
  let nl := String "010"%char EmptyString in
  alert "Update" ("Read this" +:+ nl +:+ "  and that") "info" None
    {| numid := 12; strid := ["intro"; "7"; "moved"]; has_disable_been_called := false |}
  = (Ok (String.concat nl
           [ "<input type=" +:+ q +:+ "hidden" +:+ q
               +:+ " class=" +:+ q +:+ "alert-hidder" +:+ q
               +:+ " name=" +:+ q +:+ "attr_alert-12" +:+ q
               +:+ " value=" +:+ q +:+ "0" +:+ q +:+ "/>";
             "<div class=" +:+ q +:+ "alert alert-info" +:+ q +:+ ">";
             "    <div>";
             "        <h3> Info - Update</h3>";
             "        Read this";
             "          and that";
             "    </div>";
             "    <label class=" +:+ q +:+ "fakebutton" +:+ q +:+ ">";
             "        <input type=" +:+ q +:+ "checkbox" +:+ q
               +:+ " name=" +:+ q +:+ "attr_alert-12" +:+ q
               +:+ " value=" +:+ q +:+ "1" +:+ q +:+ " /> "
               +:+ String "195"%char (String "151"%char EmptyString);
             "    </label>";
             "</div>" ]),
     {| numid := 13; strid := ["intro"; "7"; "moved"]; has_disable_been_called := false |})
  /\ ~ In "12" (["0"; "1"; "2"; "3"; "4"; "5"; "6"; "7"; "8"; "9"; "10"; "11"]
               ++ ["intro"; "7"; "moved"]).
Proof.
  intros q nl.
  destruct (alert_banner_contents "Update" ("Read this" +:+ nl +:+ "  and that") "info" None
              {| numid := 12; strid := ["intro"; "7"; "moved"];
                 has_disable_been_called := false |}
              (or_introl eq_refl) eq_refl eq_refl I)
    as (out & st' & Hrun & Hout & _ & _ & _ & Hst & Hnew).
  split.
  - rewrite Hrun, Hout, Hst. reflexivity.
  - intros Hin. apply (proj1 (proj2 (Hnew eq_refl))) in Hin.
    simpl in Hin. destruct Hin as [H | [H | [H | []]]]; discriminate.
Defined.

(** C8 as stated fails.  The banner of a text of two lines does not hold the
    text, whose second line it indents; the banner of a title or of an
    identifier on two lines, the second of which starts with a space, holds
    neither that title nor that identifier, since the margin removed from
    every line becomes that single space; and the identifier is not unique:
    a call given ["0"] as [ID] and the call without [ID] that follows it
    return banners with the same hidden input. *)
Lemma alert_banner_not_verbatim :
  let q := String "034"%char EmptyString in
  let nl := String "010"%char EmptyString in
  let open := {| numid := 0; strid := []; has_disable_been_called := false |} in
  let hidden0 :=
    "<input type=" +:+ q +:+ "hidden" +:+ q +:+ " class=" +:+ q +:+ "alert-hidder" +:+ q
    +:+ " name=" +:+ q +:+ "attr_alert-0" +:+ q
    +:+ " value=" +:+ q +:+ "0" +:+ q +:+ "/>" +:+ nl in
  (exists out st',
     alert "Update" ("a" +:+ nl +:+ "b") "info" None open = (Ok out, st')
     /\ ~ (exists pre post, out = pre +:+ ("a" +:+ nl +:+ "b") +:+ post))
  /\ (exists out st',
        alert ("a" +:+ nl +:+ " b") "Read this" "info" None open = (Ok out, st')
        /\ ~ (exists pre post, out = pre +:+ ("a" +:+ nl +:+ " b") +:+ post))
  /\ (exists out st',
        alert "Update" "Read this" "info" (Some ("a" +:+ nl +:+ " b")) open = (Ok out, st')
        /\ ~ (exists pre post,
                out = pre +:+ ("attr_alert-a" +:+ nl +:+ " b" +:+ q) +:+ post))
  /\ (exists out1 st1 out2 st2,
        alert "First" "Read this" "info" (Some "0") open = (Ok out1, st1)
        /\ alert "Second" "Read that" "warning" None st1 = (Ok out2, st2)
        /\ String.prefix hidden0 out1 = true
        /\ String.prefix hidden0 out2 = true).
Proof.
  intros q nl open hidden0. split; [|split; [|split]].
  - eexists _, _. split; [reflexivity |].
    apply containsb_false. vm_compute. reflexivity.
  - eexists _, _. split; [reflexivity |].
    apply containsb_false. vm_compute. reflexivity.
  - eexists _, _. split; [reflexivity |].
    apply containsb_false. vm_compute. reflexivity.
  - eexists _, _, _, _. split; [reflexivity |]. split; [reflexivity |].
    split; vm_compute; reflexivity.
Qed.




(** ** Reading a colour *)

Section Utf8Facts.
Import Utf8.

Lemma ascii_not_continuation (c : ascii) :
  is_ascii c = true -> is_continuation c = false.
Proof.
  unfold is_ascii, is_continuation. intros H%Nat.ltb_lt.
  apply andb_false_iff. left. apply Nat.leb_gt. exact H.
Qed.

Lemma starts_char_skip_cont (s : string) : starts_char (skip_cont s) = true.
Proof.
  induction s as [|c s IH]; [reflexivity |].
  simpl. destruct (is_continuation c) eqn:Hc; [exact IH |].
  simpl. now rewrite Hc.
Qed.

Lemma starts_char_take (n : nat) (s : string) :
  starts_char s = true -> starts_char (take n s) = true.
Proof. destruct n, s; simpl; auto. Qed.

Lemma skip_cont_app (r x : string) :
  starts_char x = true -> skip_cont (take_cont r +:+ x) = x.
Proof.
  intros Hx. induction r as [|c r IH]; simpl.
  - destruct x as [|d x]; [reflexivity |]. simpl in *.
    now apply negb_true_iff in Hx as ->.
  - destruct (is_continuation c) eqn:Hc; simpl; [now rewrite Hc |].
    destruct x as [|d x]; [reflexivity |]. simpl in *.
    now apply negb_true_iff in Hx as ->.
Qed.

Lemma take_cont_app (r x : string) :
  starts_char x = true -> take_cont (take_cont r +:+ x) = take_cont r.
Proof.
  intros Hx. induction r as [|c r IH]; simpl.
  - destruct x as [|d x]; [reflexivity |]. simpl in *.
    now apply negb_true_iff in Hx as ->.
  - destruct (is_continuation c) eqn:Hc; simpl; [now rewrite Hc, IH |].
    destruct x as [|d x]; [reflexivity |]. simpl in *.
    now apply negb_true_iff in Hx as ->.
Qed.

(** The first [m] characters of the first [k] are the first [m]. *)
Lemma take_take (m : nat) : forall k s,
  m <= k -> take m (take k s) = take m s.
Proof.
  induction m as [|m IH]; intros k s Hmk; [reflexivity |].
  destruct k as [|k]; [lia |]. destruct s as [|c r]; [reflexivity |].
  cbn [take].
  pose proof (starts_char_take k _ (starts_char_skip_cont r)) as Hs.
  rewrite (take_cont_app r _ Hs), (skip_cont_app r _ Hs), IH by lia.
  reflexivity.
Qed.

(** A slice that ends within the first [k] characters is a slice of them. *)
Lemma slice_take (n : nat) : forall m k s,
  n + m <= k -> take m (drop n (take k s)) = take m (drop n s).
Proof.
  induction n as [|n IH]; intros m k s Hk.
  - cbn [drop]. apply take_take. lia.
  - destruct k as [|k]; [lia |]. destruct s as [|c r]; [reflexivity |].
    cbn [take drop].
    rewrite (skip_cont_app r _ (starts_char_take k _ (starts_char_skip_cont r))).
    apply IH. lia.
Qed.



(** On ASCII text characters are bytes. *)
Lemma skip_cont_ascii (s : string) : all_ascii s = true -> skip_cont s = s.
Proof.
  destruct s as [|c s]; [reflexivity |].
  simpl. intros [Hc _]%andb_true_iff. now rewrite (ascii_not_continuation c Hc).
Qed.

Lemma take_cont_ascii (s : string) : all_ascii s = true -> take_cont s = EmptyString.
Proof.
  destruct s as [|c s]; [reflexivity |].
  simpl. intros [Hc _]%andb_true_iff. now rewrite (ascii_not_continuation c Hc).
Qed.

Lemma take_ascii (n : nat) : forall s,
  all_ascii s = true -> take n s = String.substring 0 n s.
Proof.
  induction n as [|n IH]; intros s Hs; [now destruct s |].
  destruct s as [|c r]; [reflexivity |].
  cbn [take String.substring]. simpl in Hs. apply andb_true_iff in Hs as [_ Hr].
  now rewrite (take_cont_ascii r Hr), (skip_cont_ascii r Hr), (IH r Hr).
Qed.

Lemma slice_ascii (n : nat) : forall m s,
  all_ascii s = true -> take m (drop n s) = String.substring n m s.
Proof.
  induction n as [|n IH]; intros m s Hs.
  - cbn [drop]. now apply take_ascii.
  - destruct s as [|c r]; [now destruct m |].
    cbn [drop String.substring]. simpl in Hs. apply andb_true_iff in Hs as [_ Hr].
    rewrite (skip_cont_ascii r Hr). now apply IH.
Qed.

End Utf8Facts.

Section HexFacts.
Context {rt : Runtime}.

(** Checked on the 65536 pairs of characters: two hexadecimal digits read
    as the number they write, between 0 and 255. *)
Lemma parse_pair_table :
  forallb (fun n1 => forallb (fun n2 =>
      let c1 := ascii_of_nat n1 in
      let c2 := ascii_of_nat n2 in
      implb (is_hex_digit c1 && is_hex_digit c2)
        (match Int16.parse (String c1 (String c2 EmptyString)) with
         | Some v => Z.eqb v (pair_value c1 c2) && Z.leb 0 v && Z.leb v 255
         | None => false
         end))
    (seq 0 256)) (seq 0 256) = true.
Proof. vm_compute. reflexivity. Qed.

Lemma parse_pair (c1 c2 : ascii) :
  is_hex_digit c1 = true -> is_hex_digit c2 = true ->
  Int16.parse (String c1 (String c2 EmptyString)) = Some (pair_value c1 c2)
  /\ (0 <= pair_value c1 c2 <= 255)%Z.
Proof.
  intros H1 H2. pose proof parse_pair_table as Ht.
  rewrite forallb_forall in Ht.
  specialize (Ht (nat_of_ascii c1)). rewrite forallb_forall in Ht.
  specialize (Ht ltac:(apply in_seq; pose proof (nat_ascii_bounded c1); lia)
                 (nat_of_ascii c2)
                 ltac:(apply in_seq; pose proof (nat_ascii_bounded c2); lia)).
  cbv zeta in Ht. rewrite !ascii_nat_embedding, H1, H2 in Ht. simpl implb in Ht.
  destruct (Int16.parse (String c1 (String c2 ""))) as [v|]; [|discriminate].
  apply andb_true_iff in Ht as [Ht Hhi]. apply andb_true_iff in Ht as [Hv Hlo].
  apply Z.eqb_eq in Hv. apply Z.leb_le in Hlo, Hhi. subst v. auto.
Qed.

Lemma hex_digit_not_hash (c : ascii) :
  is_hex_digit c = true -> Ascii.eqb c "#" = false.
Proof. intros H. destruct (Ascii.eqb_spec c "#"); [subst; discriminate | reflexivity]. Qed.

Lemma hex_digit_ascii (c : ascii) : is_hex_digit c = true -> Utf8.is_ascii c = true.
Proof. destruct c as [[] [] [] [] [] [] [] []]; intros H; try discriminate; reflexivity. Qed.

(** Two hexadecimal digits are read by [int] as by its ASCII parser. *)
Lemma int16_pair (c1 c2 : ascii) :
  is_hex_digit c1 = true -> is_hex_digit c2 = true ->
  int16 (String c1 (String c2 EmptyString)) = Some (pair_value c1 c2).
Proof.
  intros H1 H2. unfold int16. cbn [Utf8.all_ascii].
  rewrite (hex_digit_ascii c1 H1), (hex_digit_ascii c2 H2). cbn [andb].
  apply parse_pair; assumption.
Qed.

Lemma channel_pair (c1 c2 : ascii) (hex_color : string) (i : nat) :
  is_hex_digit c1 = true -> is_hex_digit c2 = true ->
  Utf8.all_ascii hex_color = true ->
  String.substring (2 * i) 2 hex_color = String c1 (String c2 EmptyString) ->
  channel hex_color i
  = Some (PrimFloat.div (float_of_int (pair_value c1 c2)) (PrimFloat.of_uint63 255)).
Proof.
  intros H1 H2 Ha Hs. unfold channel, Utf8.slice.
  replace (2 * i + 2 - 2 * i) with 2 by lia.
  rewrite (slice_ascii _ _ _ Ha), Hs.
  now rewrite (int16_pair c1 c2 H1 H2).
Qed.

(** The luma of a colour written [#RRGGBB]. *)
Lemma luma_rrggbb (r1 r2 g1 g2 b1 b2 : ascii) :
  forallb is_hex_digit [r1; r2; g1; g2; b1; b2] = true ->
  luma (String "#" (String r1 (String r2 (String g1 (String g2
         (String b1 (String b2 EmptyString)))))))
  = Ok (luma_of
          (PrimFloat.div (float_of_int (pair_value r1 r2)) (PrimFloat.of_uint63 255))
          (PrimFloat.div (float_of_int (pair_value g1 g2)) (PrimFloat.of_uint63 255))
          (PrimFloat.div (float_of_int (pair_value b1 b2)) (PrimFloat.of_uint63 255))).
Proof.
  cbn [forallb]. rewrite !andb_true_iff.
  intros (Hr1 & Hr2 & Hg1 & Hg2 & Hb1 & Hb2 & _).
  unfold luma. cbn [Str.lstrip]. rewrite Ascii.eqb_refl, (hex_digit_not_hash r1 Hr1).
  set (hex_color := String r1 (String r2 (String g1 (String g2
                      (String b1 (String b2 EmptyString)))))).
  assert (Ha : Utf8.all_ascii hex_color = true).
  { subst hex_color. cbn [Utf8.all_ascii].
    now rewrite !hex_digit_ascii by assumption. }
  rewrite (channel_pair r1 r2 hex_color 0 Hr1 Hr2 Ha eq_refl).
  rewrite (channel_pair g1 g2 hex_color 1 Hg1 Hg2 Ha eq_refl).
  rewrite (channel_pair b1 b2 hex_color 2 Hb1 Hb2 Ha eq_refl).
  reflexivity.
Qed.

End HexFacts.

(** ** Comparisons of floats *)

Section FloatOrder.

Lemma SFcompare_swap (x y : SpecFloat.spec_float) :
  SpecFloat.SFcompare y x = option_map CompOpp (SpecFloat.SFcompare x y).
Proof.
  destruct x as [sx|sx| |sx mx ex], y as [sy|sy| |sy my ey]; simpl;
    try (destruct sx); try (destruct sy); try reflexivity;
    rewrite (Z.compare_antisym ex ey);
    destruct (ex ?= ey)%Z; simpl; try reflexivity;
    change (Pos.compare_cont Eq my mx) with (my ?= mx)%positive;
    change (Pos.compare_cont Eq mx my) with (mx ?= my)%positive;
    rewrite (Pos.compare_antisym mx my);
    destruct (mx ?= my)%positive; reflexivity.
Qed.

Variables x y : float.

Lemma ltb_asym : PrimFloat.ltb x y = true -> PrimFloat.ltb y x = false.
Proof.
  rewrite !FloatAxioms.ltb_spec. unfold SpecFloat.SFltb.
  rewrite (SFcompare_swap (Prim2SF x) (Prim2SF y)).
  destruct (SpecFloat.SFcompare (Prim2SF x) (Prim2SF y)) as [[]|]; simpl; congruence.
Qed.

Lemma eqb_not_ltb :
  PrimFloat.eqb x y = true -> PrimFloat.ltb x y = false /\ PrimFloat.ltb y x = false.
Proof.
  rewrite FloatAxioms.eqb_spec, !FloatAxioms.ltb_spec.
  unfold SpecFloat.SFeqb, SpecFloat.SFltb.
  rewrite (SFcompare_swap (Prim2SF x) (Prim2SF y)).
  destruct (SpecFloat.SFcompare (Prim2SF x) (Prim2SF y)) as [[]|]; simpl;
    split; congruence.
Qed.

End FloatOrder.

(** ** The rules of a colour *)

(** C5: for a colour written [#RRGGBB], the luma is
    [0.2126 * r + 0.7152 * g + 0.0722 * b] on the three channels, each the
    value of its two digits (between 0 and 255) divided by 255.  The three
    rules of the colour are written out: a luma above 0.5 adds the line
    [--header-text-color: #000;] to the header rule and the line
    [--button-text-color: #000;] to the button rule, and nothing to the roll
    rule; a luma below 0.5 adds the line [--roll-text-color: #FFF;] to the
    roll rule and nothing to the other two; a luma equal to 0.5 adds nothing.
    [#FFFFFF] has luma 1.0, black header and button text and a plain roll
    rule; [#000000] has luma 0.0, white roll text and plain header and button
    rules. *)
#[warnings="-inexact-float"]
Theorem luma_text_colors {rt : Runtime} (name : string) :
  let nl := String "010"%char EmptyString in
  let rules (h : string) (header_text roll_text button_text : list string) :=
    [ String.concat nl
        ([ ".sheet-rolltemplate-custom .sheet-crt-container.sheet-crt-color-"
             +:+ name +:+ " {";
           "    --header-bg-color: " +:+ h +:+ ";" ] ++ header_text ++ ["}"]);
      String.concat nl
        ([ ".sheet-rolltemplate-custom .sheet-crt-container.sheet-crt-rlcolor-"
             +:+ name +:+ " .inlinerollresult {";
           "    --roll-bg-color: " +:+ h +:+ ";" ] ++ roll_text ++ ["}"]);
      String.concat nl
        ([ ".sheet-rolltemplate-custom .sheet-crt-container.sheet-crt-btcolor-"
             +:+ name +:+ " a {";
           "    --button-bg-color: " +:+ h +:+ ";" ] ++ button_text ++ ["}"]) ] in
  (forall r1 r2 g1 g2 b1 b2 : ascii,
     forallb is_hex_digit [r1; r2; g1; g2; b1; b2] = true ->
     let h := String "#" (String r1 (String r2 (String g1 (String g2
                (String b1 (String b2 EmptyString)))))) in
     let r := (float_of_int (pair_value r1 r2) / PrimFloat.of_uint63 255)%float in
     let g := (float_of_int (pair_value g1 g2) / PrimFloat.of_uint63 255)%float in
     let b := (float_of_int (pair_value b1 b2) / PrimFloat.of_uint63 255)%float in
     let l := (0.2126 * r + 0.7152 * g + 0.0722 * b)%float in
     (0 <= pair_value r1 r2 <= 255)%Z
     /\ (0 <= pair_value g1 g2 <= 255)%Z
     /\ (0 <= pair_value b1 b2 <= 255)%Z
     /\ luma h = Ok l
     /\ (PrimFloat.ltb 0.5 l = true ->
           color_rules (mkColor (Some name) (Some h))
           = Ok (rules h ["    --header-text-color: #000;"] []
                         ["    --button-text-color: #000;"]))
     /\ (PrimFloat.ltb l 0.5 = true ->
           color_rules (mkColor (Some name) (Some h))
           = Ok (rules h [] ["    --roll-text-color: #FFF;"] []))
     /\ (PrimFloat.eqb l 0.5 = true ->
           color_rules (mkColor (Some name) (Some h)) = Ok (rules h [] [] [])))
  /\ (luma "#FFFFFF" = Ok 1%float
      /\ color_rules (mkColor (Some name) (Some "#FFFFFF"))
         = Ok (rules "#FFFFFF" ["    --header-text-color: #000;"] []
                               ["    --button-text-color: #000;"]))
  /\ (luma "#000000" = Ok 0%float
      /\ color_rules (mkColor (Some name) (Some "#000000"))
         = Ok (rules "#000000" [] ["    --roll-text-color: #FFF;"] [])).
Proof.
  intros nl rules. split; [|split].
  - intros r1 r2 g1 g2 b1 b2 Hd h r g b l.
    pose proof (luma_rrggbb r1 r2 g1 g2 b1 b2 Hd) as Hl.
    cbn [forallb] in Hd. rewrite !andb_true_iff in Hd.
    destruct Hd as (Hr1 & Hr2 & Hg1 & Hg2 & Hb1 & Hb2 & _).
    split; [apply parse_pair; assumption |].
    split; [apply parse_pair; assumption |].
    split; [apply parse_pair; assumption |].
    change (luma h = Ok l) in Hl.
    split; [exact Hl |].
    unfold color_rules. cbn [hex]. rewrite Hl.
    unfold lines_header, lines_rolls, lines_buttons.
    split; [|split].
    + intros H. rewrite H, (ltb_asym _ _ H). reflexivity.
    + intros H. rewrite H, (ltb_asym _ _ H). reflexivity.
    + intros H. destruct (eqb_not_ltb _ _ H) as [H1 H2].
      rewrite H1, H2. reflexivity.
  - split; reflexivity.
  - split; reflexivity.
Qed.

(** Three colours, one for each case: [#FFFFFF] above 0.5, [#000000] below,
    and [#2F8FD3], whose luma is 0.5. *)
#[warnings="-inexact-float"]
Lemma luma_text_colors_witness :
  let nl := String "010"%char EmptyString in
  (forallb is_hex_digit ["F"; "F"; "F"; "F"; "F"; "F"]%char = true
   /\ luma (rt := ascii_runtime) "#FFFFFF" = Ok 1%float
   /\ PrimFloat.ltb 0.5 1 = true
   /\ color_rules (rt := ascii_runtime) (mkColor (Some "white") (Some "#FFFFFF"))
      = Ok [ String.concat nl
               [ ".sheet-rolltemplate-custom .sheet-crt-container.sheet-crt-color-white {";
                 "    --header-bg-color: #FFFFFF;";
                 "    --header-text-color: #000;";
                 "}" ];
             String.concat nl
               [ ".sheet-rolltemplate-custom .sheet-crt-container.sheet-crt-rlcolor-white .inlinerollresult {";
                 "    --roll-bg-color: #FFFFFF;";
                 "}" ];
             String.concat nl
               [ ".sheet-rolltemplate-custom .sheet-crt-container.sheet-crt-btcolor-white a {";
                 "    --button-bg-color: #FFFFFF;";
                 "    --button-text-color: #000;";
                 "}" ] ])
  /\ (luma (rt := ascii_runtime) "#0DA371" = Ok 0x1.ffffffffffffep-2%float
      /\ PrimFloat.ltb 0x1.ffffffffffffep-2 0.5 = true
      /\ color_rules (rt := ascii_runtime) (mkColor (Some "green") (Some "#0DA371"))
         = Ok [ String.concat nl
                  [ ".sheet-rolltemplate-custom .sheet-crt-container.sheet-crt-color-green {";
                    "    --header-bg-color: #0DA371;";
                    "}" ];
                String.concat nl
                  [ ".sheet-rolltemplate-custom .sheet-crt-container.sheet-crt-rlcolor-green .inlinerollresult {";
                    "    --roll-bg-color: #0DA371;";
                    "    --roll-text-color: #FFF;";
                    "}" ];
                String.concat nl
                  [ ".sheet-rolltemplate-custom .sheet-crt-container.sheet-crt-btcolor-green a {";
                    "    --button-bg-color: #0DA371;";
                    "}" ] ])
  /\ (luma (rt := ascii_runtime) "#2F8FD3" = Ok 0.5%float
      /\ PrimFloat.eqb 0.5 0.5 = true
      /\ color_rules (rt := ascii_runtime) (mkColor (Some "blue") (Some "#2F8FD3"))
         = Ok [ String.concat nl
                  [ ".sheet-rolltemplate-custom .sheet-crt-container.sheet-crt-color-blue {";
                    "    --header-bg-color: #2F8FD3;";
                    "}" ];
                String.concat nl
                  [ ".sheet-rolltemplate-custom .sheet-crt-container.sheet-crt-rlcolor-blue .inlinerollresult {";
                    "    --roll-bg-color: #2F8FD3;";
                    "}" ];
                String.concat nl
                  [ ".sheet-rolltemplate-custom .sheet-crt-container.sheet-crt-btcolor-blue a {";
                    "    --button-bg-color: #2F8FD3;";
                    "}" ] ]).
Proof.
  intros nl. split; [|split].
  - pose proof (proj1 (luma_text_colors (rt := ascii_runtime) "white")
                  "F" "F" "F" "F" "F" "F" eq_refl)%char
      as (_ & _ & _ & Hl & Hhigh & _ & _).
    split; [reflexivity |]. split; [exact Hl |]. split; [reflexivity |].
    exact (Hhigh eq_refl).
  - pose proof (proj1 (luma_text_colors (rt := ascii_runtime) "green")
                  "0" "D" "A" "3" "7" "1" eq_refl)%char
      as (_ & _ & _ & Hl & _ & Hlow & _).
    split; [exact Hl |]. split; [reflexivity |].
    exact (Hlow eq_refl).
  - pose proof (proj1 (luma_text_colors (rt := ascii_runtime) "blue")
                  "2" "F" "8" "F" "D" "3" eq_refl)%char
      as (_ & _ & _ & Hl & _ & _ & Heq).
    split; [exact Hl |]. split; [reflexivity |].
    exact (Heq eq_refl).
Defined.

(** ** The rules of the table *)

Section CssFacts.
Context {rt : Runtime}.

Lemma rrggbb_inv (h : string) :
  is_rrggbb h = true ->
  exists r1 r2 g1 g2 b1 b2,
    h = String "#" (String r1 (String r2 (String g1 (String g2
          (String b1 (String b2 EmptyString))))))
    /\ forallb is_hex_digit [r1; r2; g1; g2; b1; b2] = true.
Proof.
  intros H. destruct h as [|c0 h]; [discriminate |].
  destruct c0 as [[] [] [] [] [] [] [] []]; try discriminate.
  destruct h as [|r1 [|r2 [|g1 [|g2 [|b1 [|b2 [|]]]]]]]; try discriminate.
  exists r1, r2, g1, g2, b1, b2. split; [reflexivity | exact H].
Qed.

Lemma rrggbb_readable (d : color_def) (h : string) :
  hex d = Some h -> is_rrggbb h = true -> readable d.
Proof.
  intros Hd (r1 & r2 & g1 & g2 & b1 & b2 & Hh & Hdig)%rrggbb_inv.
  pose proof (luma_rrggbb r1 r2 g1 g2 b1 b2 Hdig) as Hl. rewrite <- Hh in Hl.
  exists h. eexists. split; [exact Hd | exact Hl].
Qed.

(** A colour that can be read gives three rules: header, rolls, buttons,
    each made of its two base lines, at most one text colour, and the
    closing brace. *)
Lemma color_rules_readable (d : color_def) :
  readable d ->
  exists oh orl ob,
    color_rules d = Ok [ build_rule (base_header d ++ oh);
                         build_rule (base_rolls d ++ orl);
                         build_rule (base_buttons d ++ ob) ]
    /\ (oh = [] \/ oh = [header_text_black])
    /\ (orl = [] \/ orl = [roll_text_white])
    /\ (ob = [] \/ ob = [button_text_black]).
Proof.
  intros (h & l & Hh & Hl). unfold color_rules. rewrite Hh, Hl. cbn [map].
  unfold lines_header, lines_rolls, lines_buttons.
  eexists _, _, _. split; [reflexivity |].
  repeat split; match goal with |- context [if ?b then _ else _] => destruct b end; auto.
Qed.

Lemma css_rules_from_ok (rows : list color_def) : forall acc,
  Forall readable rows ->
  css_rules_from acc rows = Ok (acc ++ flat_map rules_of rows).
Proof.
  induction rows as [|d rows IH]; intros acc Hall.
  - simpl. now rewrite List.app_nil_r.
  - inversion Hall as [|? ? Hd Hrest]; subst.
    destruct (color_rules_readable d Hd) as (oh & orl & ob & Hr & _).
    cbn [css_rules_from flat_map]. unfold rules_of at 1. rewrite Hr.
    rewrite (IH _ Hrest), <- List.app_assoc. reflexivity.
Qed.

Lemma length_flat_map_rules (rows : list color_def) :
  Forall readable rows ->
  length (flat_map rules_of rows) = 3 * length rows.
Proof.
  induction 1 as [|d rows Hd _ IH]; [reflexivity |].
  destruct (color_rules_readable d Hd) as (oh & orl & ob & Hr & _).
  cbn [flat_map length]. rewrite length_app, IH. unfold rules_of. rewrite Hr.
  simpl. lia.
Qed.

(** A colour that cannot be read ends the generation: nothing is exported. *)
Lemma css_rules_unreadable (rows : list color_def) : forall acc,
  Exists (fun d => ~ readable d) rows ->
  exists e, css_rules_from acc rows = Raise e.
Proof.
  induction rows as [|d rows IH]; intros acc Hex; [inversion Hex |].
  cbn [css_rules_from]. unfold color_rules.
  destruct (hex d) as [h|] eqn:Hh; [|eauto].
  destruct (luma h) as [l|e] eqn:Hl; [|eauto].
  apply IH. inversion Hex as [? ? Hd|]; subst; [|assumption].
  exfalso. apply Hd. now exists h, l.
Qed.

(** The rules of a colour that can be read, written out. *)
Lemma rules_of_readable (d : color_def) (h : string) (l : float) :
  hex d = Some h -> luma h = Ok l ->
  rules_of d
  = [ String.concat Str.nl
        ([ ".sheet-rolltemplate-custom .sheet-crt-container.sheet-crt-color-"
             +:+ format_field (color d) +:+ " {";
           "    --header-bg-color: " +:+ h +:+ ";" ]
         ++ (if PrimFloat.ltb 0.5 l then ["    --header-text-color: #000;"] else [])
         ++ ["}"]);
      String.concat Str.nl
        ([ ".sheet-rolltemplate-custom .sheet-crt-container.sheet-crt-rlcolor-"
             +:+ format_field (color d) +:+ " .inlinerollresult {";
           "    --roll-bg-color: " +:+ h +:+ ";" ]
         ++ (if PrimFloat.ltb l 0.5 then ["    --roll-text-color: #FFF;"] else [])
         ++ ["}"]);
      String.concat Str.nl
        ([ ".sheet-rolltemplate-custom .sheet-crt-container.sheet-crt-btcolor-"
             +:+ format_field (color d) +:+ " a {";
           "    --button-bg-color: " +:+ h +:+ ";" ]
         ++ (if PrimFloat.ltb 0.5 l then ["    --button-text-color: #000;"] else [])
         ++ ["}"]) ].
Proof.
  intros Hh Hl. unfold rules_of, color_rules. rewrite Hh, Hl. cbn [map].
  unfold build_rule, lines_header, lines_rolls, lines_buttons,
    base_header, base_rolls, base_buttons, Str.join.
  rewrite Hh. cbn [format_field]. rewrite <- !List.app_assoc. reflexivity.
Qed.

End CssFacts.

(** C6: for a table of colours the generator can read, as all those written
    [#RRGGBB] are, it emits three rules for each colour, in the order of the
    table: the header rule, selected by the class [sheet-crt-color-] with the
    name of the colour and setting [--header-bg-color] to its [hex]; the roll
    rule, selected by [sheet-crt-rlcolor-] with the name and setting
    [--roll-bg-color]; the button rule, selected by [sheet-crt-btcolor-]
    with the name and setting [--button-bg-color]; each with the text colour
    its luma calls for and closed by a brace.  The exported string is those
    rules joined by newlines between ["*/"] and ["/*"]. *)
#[warnings="-inexact-float"]
Theorem css_rules_layout {rt : Runtime} (rows : list color_def) :
  let nl := String "010"%char EmptyString in
  let written (field : option string) : string :=
    match field with Some s => s | None => "None" end in
  let text_color (d : color_def) (test : float -> bool) (line : string) : list string :=
    match hex d with
    | Some h => match luma h with
                | Ok l => if test l then [line] else []
                | Raise _ => []
                end
    | None => []
    end in
  let rules_for (d : color_def) : list string :=
    [ String.concat nl
        ([ ".sheet-rolltemplate-custom .sheet-crt-container.sheet-crt-color-"
             +:+ written (color d) +:+ " {";
           "    --header-bg-color: " +:+ written (hex d) +:+ ";" ]
         ++ text_color d (fun l => PrimFloat.ltb 0.5 l) "    --header-text-color: #000;"
         ++ ["}"]);
      String.concat nl
        ([ ".sheet-rolltemplate-custom .sheet-crt-container.sheet-crt-rlcolor-"
             +:+ written (color d) +:+ " .inlinerollresult {";
           "    --roll-bg-color: " +:+ written (hex d) +:+ ";" ]
         ++ text_color d (fun l => PrimFloat.ltb l 0.5) "    --roll-text-color: #FFF;"
         ++ ["}"]);
      String.concat nl
        ([ ".sheet-rolltemplate-custom .sheet-crt-container.sheet-crt-btcolor-"
             +:+ written (color d) +:+ " a {";
           "    --button-bg-color: " +:+ written (hex d) +:+ ";" ]
         ++ text_color d (fun l => PrimFloat.ltb 0.5 l) "    --button-text-color: #000;"
         ++ ["}"]) ] in
  (Forall (fun d => exists h, hex d = Some h /\ is_rrggbb h = true) rows ->
   Forall (fun d => exists h l, hex d = Some h /\ luma h = Ok l) rows)
  /\ (Forall (fun d => exists h l, hex d = Some h /\ luma h = Ok l) rows ->
      exists rules,
        css_rules rows = Ok rules
        /\ rules = flat_map rules_for rows
        /\ length rules = 3 * length rows
        /\ (forall k d, nth_error rows k = Some d ->
              firstn 3 (skipn (3 * k) rules) = rules_for d)
        /\ custom_rt_color_css rows
           = Ok ("*/" +:+ nl +:+ String.concat nl rules +:+ nl +:+ "/*")).
Proof.
  intros nl written text_color rules_for. split.
  { intros Hall. eapply List.Forall_impl; [|exact Hall].
    intros d (h & Hh & Hd). exact (rrggbb_readable d h Hh Hd). }
  intros Hall. exists (flat_map rules_of rows).
  assert (Hcss : css_rules rows = Ok (flat_map rules_of rows))
    by (unfold css_rules; now rewrite css_rules_from_ok).
  assert (Hfor : forall d, readable d -> rules_of d = rules_for d).
  { intros d (h & l & Hh & Hl). rewrite (rules_of_readable d h l Hh Hl).
    unfold rules_for, text_color, written. rewrite Hh, Hl.
    destruct (color d); reflexivity. }
  assert (Hmap : flat_map rules_of rows = flat_map rules_for rows).
  { clear Hcss. induction Hall as [|d rows Hd _ IH]; [reflexivity |].
    cbn [flat_map]. now rewrite IH, (Hfor d Hd). }
  split; [exact Hcss |]. split; [exact Hmap |].
  split; [now apply length_flat_map_rules |].
  split.
  - rewrite Hmap. clear Hcss Hmap Hfor Hall. induction rows as [|d0 rows IH]; intros k d Hk.
    + now destruct k.
    + destruct k as [|k].
      * injection Hk as ->. reflexivity.
      * replace (3 * S k) with (S (S (S (3 * k)))) by lia.
        cbn [flat_map]. cbn [skipn app]. apply IH. exact Hk.
  - unfold custom_rt_color_css. rewrite Hcss. reflexivity.
Qed.

#[warnings="-inexact-float"]
Lemma css_rules_layout_witness :
  let nl := String "010"%char EmptyString in
  let rows := [ mkColor (Some "red") (Some "#FF0000");
                mkColor (Some "white") (Some "#FFFFFF") ] in
  Forall (fun d => exists h l, hex d = Some h /\ luma (rt := ascii_runtime) h = Ok l) rows
  /\ custom_rt_color_css (rt := ascii_runtime) rows
     = Ok (String.concat nl
             [ "*/";
               ".sheet-rolltemplate-custom .sheet-crt-container.sheet-crt-color-red {";
               "    --header-bg-color: #FF0000;";
               "}";
               ".sheet-rolltemplate-custom .sheet-crt-container.sheet-crt-rlcolor-red .inlinerollresult {";
               "    --roll-bg-color: #FF0000;";
               "    --roll-text-color: #FFF;";
               "}";
               ".sheet-rolltemplate-custom .sheet-crt-container.sheet-crt-btcolor-red a {";
               "    --button-bg-color: #FF0000;";
               "}";
               ".sheet-rolltemplate-custom .sheet-crt-container.sheet-crt-color-white {";
               "    --header-bg-color: #FFFFFF;";
               "    --header-text-color: #000;";
               "}";
               ".sheet-rolltemplate-custom .sheet-crt-container.sheet-crt-rlcolor-white .inlinerollresult {";
               "    --roll-bg-color: #FFFFFF;";
               "}";
               ".sheet-rolltemplate-custom .sheet-crt-container.sheet-crt-btcolor-white a {";
               "    --button-bg-color: #FFFFFF;";
               "    --button-text-color: #000;";
               "}";
               "/*" ]).
Proof.
  intros nl rows.
  assert (Hall : Forall (fun d => exists h l,
                     hex d = Some h /\ luma (rt := ascii_runtime) h = Ok l) rows).
  { repeat (apply List.Forall_cons; [eexists _, _; split; reflexivity |]).
    apply List.Forall_nil. }
  split; [exact Hall |].
  destruct (proj2 (css_rules_layout (rt := ascii_runtime) rows) Hall)
    as (rules & _ & Hrules & _ & _ & Hcss).
  rewrite Hcss, Hrules. reflexivity.
Defined.

(** ** The merge of the tabs *)

Section MergeFacts.

Lemma lookup_update (d other : gmap string pyobj) (k : string) :
  update d other !! k = match other !! k with Some v => Some v | None => d !! k end.
Proof.
  unfold update. destruct (other !! k) as [v|] eqn:Hk.
  - now apply lookup_union_Some_l.
  - now apply lookup_union_r.
Qed.

Lemma fold_binding (k : string) (tabs : list (gmap string pyobj)) : forall found,
  fold_left (fun found t => match t !! k with Some v => Some v | None => found end)
    tabs found
  = match last_binding k tabs with Some v => Some v | None => found end.
Proof.
  unfold last_binding.
  induction tabs as [|t tabs IH]; intros found; cbn [fold_left]; [reflexivity |].
  rewrite (IH (match t !! k with Some v => Some v | None => found end)).
  rewrite (IH (match t !! k with Some v => Some v | None => None end)).
  match goal with |- context [fold_left ?f tabs None] =>
    destruct (fold_left f tabs None) end; [reflexivity |].
  destruct (t !! k); reflexivity.
Qed.

Lemma last_binding_cons (k : string) (t : gmap string pyobj)
    (tabs : list (gmap string pyobj)) :
  last_binding k (t :: tabs)
  = match last_binding k tabs with Some v => Some v | None => t !! k end.
Proof.
  unfold last_binding at 1. cbn [fold_left]. rewrite fold_binding.
  destruct (last_binding k tabs); [reflexivity |]. destruct (t !! k); reflexivity.
Qed.

(** A key is bound in the merged table to its binding in the last tab
    that has it, and to its binding before the merge when no tab has it. *)
Lemma lookup_merge_tabs (k : string) (tabs : list (gmap string pyobj)) : forall m,
  merge_tabs m tabs !! k
  = match last_binding k tabs with Some v => Some v | None => m !! k end.
Proof.
  induction tabs as [|t tabs IH]; intros m; [reflexivity |].
  unfold merge_tabs in *. cbn [fold_left]. rewrite IH, last_binding_cons, lookup_update.
  destruct (last_binding k tabs); reflexivity.
Qed.

Lemma last_binding_Some (k : string) (tabs : list (gmap string pyobj)) (w : pyobj) :
  last_binding k tabs = Some w ->
  exists j t, nth_error tabs j = Some t /\ t !! k = Some w.
Proof.
  induction tabs as [|t0 tabs IH]; [discriminate |].
  rewrite last_binding_cons. destruct (last_binding k tabs) as [w'|].
  - intros [= ->]. destruct (IH eq_refl) as (j & t & Hj & Ht).
    exists (S j), t. auto.
  - intros Ht. exists 0, t0. auto.
Qed.

(** The last binding is the binding in a tab that no later tab rebinds. *)
Lemma last_binding_at (k : string) (tabs : list (gmap string pyobj)) :
  forall i t v,
    nth_error tabs i = Some t -> t !! k = Some v ->
    (forall j t', i < j -> nth_error tabs j = Some t' -> t' !! k = None) ->
    last_binding k tabs = Some v.
Proof.
  induction tabs as [|t0 tabs IH]; intros i t v Hi Hv Hlater.
  - now destruct i.
  - rewrite last_binding_cons. destruct i as [|i]; simpl in Hi.
    + injection Hi as ->.
      destruct (last_binding k tabs) as [w|] eqn:Hw; [|exact Hv].
      destruct (last_binding_Some k tabs w Hw) as (j & t' & Hj & Ht').
      rewrite (Hlater (S j) t') in Ht'; [discriminate | lia | exact Hj].
    + rewrite (IH i t v Hi Hv); [reflexivity |].
      intros j t' Hj Hn. apply (Hlater (S j) t'); [lia | exact Hn].
Qed.

Lemma last_binding_None (k : string) (tabs : list (gmap string pyobj)) :
  last_binding k tabs = None <-> Forall (fun t => t !! k = None) tabs.
Proof.
  induction tabs as [|t tabs IH]; [split; [constructor | reflexivity] |].
  rewrite last_binding_cons, List.Forall_cons_iff, <- IH.
  destruct (last_binding k tabs); split; try tauto; try discriminate.
Qed.

End MergeFacts.

(** C7: when the colour rules are built, [EXPORTS] is built whatever the
    six tables hold, with no check for keys bound twice.  It binds every key
    of every table; a key bound in several tables has the value of the last
    of them in the order character, abilities, magic, combat, spells, sheet;
    a key of no table keeps the binding the module itself gave it. *)
Theorem exports_merge {rt : Runtime} (rows : list color_def)
    (tab_1_character tab_2_abilities tab_3_magic
     tab_4_combat tab_5_spells tab_6_sheet : gmap string pyobj) (css : string) :
  custom_rt_color_css rows = Ok css ->
  let tabs := [ tab_1_character; tab_2_abilities; tab_3_magic;
                tab_4_combat; tab_5_spells; tab_6_sheet ] in
  exists exports,
    EXPORTS rows tab_1_character tab_2_abilities tab_3_magic
      tab_4_combat tab_5_spells tab_6_sheet = Ok exports
    /\ (forall k i t, nth_error tabs i = Some t -> is_Some (t !! k) ->
          is_Some (exports !! k))
    /\ (forall k i t v,
          nth_error tabs i = Some t -> t !! k = Some v ->
          (forall j t', i < j -> nth_error tabs j = Some t' -> t' !! k = None) ->
          exports !! k = Some v)
    /\ (forall k, Forall (fun t => t !! k = None) tabs ->
          exports !! k = EXPORTS_own css !! k)
    /\ dom exports
       = dom tab_6_sheet ∪ (dom tab_5_spells ∪ (dom tab_4_combat ∪ (dom tab_3_magic
           ∪ (dom tab_2_abilities ∪ (dom tab_1_character ∪ dom (EXPORTS_own css)))))).
Proof.
  intros Hcss tabs. exists (merge_tabs (EXPORTS_own css) tabs).
  split; [unfold EXPORTS; rewrite Hcss; reflexivity |].
  split; [|split; [|split]].
  - intros k i t Hi [v Hv]. rewrite lookup_merge_tabs.
    destruct (last_binding k tabs) as [w|] eqn:Hw; [eauto |].
    apply last_binding_None in Hw. rewrite List.Forall_forall in Hw.
    rewrite (Hw t (nth_error_In _ _ Hi)) in Hv. discriminate.
  - intros k i t v Hi Hv Hlater. rewrite lookup_merge_tabs.
    now rewrite (last_binding_at k tabs i t v Hi Hv Hlater).
  - intros k Hnone. rewrite lookup_merge_tabs.
    apply last_binding_None in Hnone. now rewrite Hnone.
  - unfold tabs, merge_tabs, update. cbn [fold_left].
    rewrite !dom_union_L. reflexivity.
Qed.

Lemma exports_merge_witness :
  exists exports,
    EXPORTS (rt := ascii_runtime) []
      {[ "name" := PyStr "character" ]} {[ "name" := PyStr "abilities" ]}
      ∅ ∅ ∅ ∅ = Ok exports
    /\ exports !! "name" = Some (PyStr "abilities").
Proof.
  destruct (exports_merge (rt := ascii_runtime) [] {[ "name" := PyStr "character" ]}
              {[ "name" := PyStr "abilities" ]} ∅ ∅ ∅ ∅
              ("*/" +:+ Str.nl +:+ Str.nl +:+ "/*") eq_refl)
    as (exports & Hexp & _ & Hlast & _).
  exists exports. split; [exact Hexp |].
  apply (Hlast "name" 1 {[ "name" := PyStr "abilities" ]}).
  - reflexivity.
  - apply lookup_singleton_eq.
  - intros j t' Hj Ht'.
    do 2 (destruct j as [|j]; [lia |]).
    do 4 (destruct j as [|j]; [injection Ht' as <-; apply lookup_empty |]).
    destruct j; discriminate.
Defined.

(** * Further properties of the module *)

(** ** The whole banner *)

(** X1: when the title and the identifier hold no newline, the banner is
    the ten lines of the template without their first eight spaces, the text
    standing on as many lines as it has, each behind eight spaces, and its
    lines of blanks emptied. *)
Theorem banner_layout (i : alert_id) (level title text : string) :
  level = "info" \/ level = "warning" ->
  Str.one_line title = true ->
  Str.one_line (format_id i) = true ->
  banner i level title text = Str.join Str.nl (banner_lines i level title text).
Proof.
  intros Hl%level_ok_iff Ht Hi. now apply banner_is_lines.
Qed.

Lemma banner_layout_witness :
  banner (StrId "moved") "warning" "Data moved"
    ("First line" +:+ Str.nl +:+ "  " +:+ Str.nl +:+ "Last line")
  = Str.join Str.nl
      [ hidden_input (StrId "moved");
        "<div class=" +:+ Str.quoted "alert alert-warning" +:+ ">";
        "    <div>";
        "        <h3> Warning - Data moved</h3>";
        "        First line";
        "";
        "        Last line";
        "    </div>";
        "    <label class=" +:+ Str.quoted "fakebutton" +:+ ">";
        "        <input type=" +:+ Str.quoted "checkbox" +:+ " name="
          +:+ Str.quoted "attr_alert-moved" +:+ " value=" +:+ Str.quoted "1"
          +:+ " /> " +:+ String "195"%char (String "151"%char EmptyString);
        "    </label>";
        "</div>" ].
Proof.
  exact (banner_layout (StrId "moved") "warning" "Data moved"
           ("First line" +:+ Str.nl +:+ "  " +:+ Str.nl +:+ "Last line")
           (or_intror eq_refl) eq_refl eq_refl).
Defined.

(** X2: a text made of spaces and tabs only is lost: its banner is the
    banner of the empty text, whatever the title and the identifier. *)
Theorem banner_blank_text (i : alert_id) (level title text : string) :
  Textwrap.all_blank text = true ->
  banner i level title text = banner i level title "".
Proof.
  intros Hb. unfold banner. change (4 * 4) with 16.
  rewrite (replace_one_line _ text (all_blank_one_line text Hb)).
  apply dedent_same_lines. unfold alert_template.
  rewrite !split_lines_join. cbn [map concat]. rewrite !map_app.
  do 4 f_equal.
  rewrite (split_lines_one_line (Str.spaces 16 +:+ text))
    by (rewrite one_line_app; now rewrite (all_blank_one_line text Hb)).
  cbn [map Str.replace]. unfold Textwrap.normalize at 1 3.
  now rewrite all_blank_app, Hb.
Qed.

Lemma banner_blank_text_witness :
  banner (IntId 0) "info" "Update" ("  " +:+ String "009"%char " ")
  = banner (IntId 0) "info" "Update" "".
Proof.
  exact (banner_blank_text (IntId 0) "info" "Update"
           ("  " +:+ String "009"%char " ") eq_refl).
Defined.

(** ** The registry under any sequence of calls *)

(** X3: a call of [alert] returns a banner exactly when its level is one of
    the two recognised and the closing script has not been generated; it
    then adds one identifier to the registry: the counter grows by one or
    the list of string identifiers by one element, never both. *)
Theorem alert_succeeds_iff (title text level : string) (ID : option string)
    (st : registry) :
  ((exists out st', alert title text level ID st = (Ok out, st'))
   <-> (level = "info" \/ level = "warning") /\ has_disable_been_called st = false)
  /\ (forall out st', alert title text level ID st = (Ok out, st') ->
        has_disable_been_called st' = false
        /\ numid st' + length (strid st') = S (numid st + length (strid st))
        /\ Permutation (registered_ids st')
             ((match ID with None => IntId (numid st) | Some s => StrId s end)
              :: registered_ids st)).
Proof.
  split; [split |].
  - intros (out & st' & H). destruct (level_ok level) eqn:Hl.
    + split; [now apply level_ok_iff |].
      destruct (has_disable_been_called st) eqn:Hd; [|reflexivity].
      rewrite alert_after_disable in H by assumption. discriminate.
    + rewrite alert_bad_level in H by assumption. discriminate.
  - intros [Hl%level_ok_iff Hd]. rewrite (alert_ok _ _ _ _ _ Hl Hd).
    destruct ID; eauto.
  - intros out st' H.
    destruct (level_ok level) eqn:Hl;
      [|rewrite alert_bad_level in H by assumption; discriminate].
    destruct (has_disable_been_called st) eqn:Hd;
      [rewrite alert_after_disable in H by assumption; discriminate |].
    rewrite (alert_ok _ _ _ _ _ Hl Hd) in H. unfold registered_ids.
    destruct ID as [s|]; injection H as _ <-; cbn [numid strid has_disable_been_called].
    + split; [reflexivity |]. split; [rewrite length_app; simpl; lia |].
      rewrite map_app. cbn [map]. rewrite List.app_assoc.
      symmetry. apply Permutation_cons_append.
    + split; [reflexivity |]. split; [lia |].
      rewrite Nat.add_1_r, seq_S, map_app. cbn [map Nat.add].
      rewrite <- List.app_assoc. symmetry. apply Permutation_middle.
Qed.

Section Ops.

(** On a closed registry a call of [alert] raises and changes nothing. *)
Lemma closed_alert_raises (title text level : string) (ID : option string)
    (st : registry) :
  has_disable_been_called st = true ->
  alert title text level ID st
  = (Raise (if level_ok level then order_error else level_error), st).
Proof.
  intros Hd. destruct (level_ok level) eqn:Hl.
  - now apply alert_after_disable.
  - now apply alert_bad_level.
Qed.

Lemma closed_alert_state (title text level : string) (ID : option string)
    (st : registry) :
  has_disable_been_called st = true -> snd (alert title text level ID st) = st.
Proof. intros Hd. now rewrite closed_alert_raises. Qed.

Lemma step_closed (o : op) (st : registry) :
  has_disable_been_called st = true -> snd (step o st) = st.
Proof.
  intros Hd. destruct o as [c | marker]; cbn [step].
  - now rewrite (closed_alert_state (call_title c) (call_text c)
                   (call_level c) (call_ID c) st Hd).
  - rewrite disable_old_alerts_eq. destruct st; simpl in *. now subst.
Qed.

Lemma run_ops_closed (ops : list op) (st : registry) :
  has_disable_been_called st = true -> run_ops ops st = st.
Proof.
  intros Hd. unfold run_ops. induction ops as [|o ops IH]; [reflexivity |].
  cbn [fold_left]. now rewrite (step_closed o st Hd).
Qed.

Lemma run_ops_app (a b : list op) (st : registry) :
  run_ops (a ++ b) st = run_ops b (run_ops a st).
Proof. unfold run_ops. apply fold_left_app. Qed.

End Ops.

(** X4: once [disable_old_alerts] has been called, the registry is final:
    whatever calls follow, the counter, the list and the flag stay as that
    call left them, every later [alert] raises, and every later
    [disable_old_alerts] with a given marker returns the same script. *)
Theorem registry_final_after_disable (before after : list op) (marker : string)
    (st0 : registry) :
  let st := run_ops (before ++ [CallDisable marker]) st0 in
  run_ops (before ++ CallDisable marker :: after) st0 = st
  /\ has_disable_been_called st = true
  /\ (forall later c, exists e, step (CallAlert c) (run_ops later st) = (Raise e, st))
  /\ (forall later m, step (CallDisable m) (run_ops later st)
                      = step (CallDisable m) st).
Proof.
  intros st.
  assert (Hd : has_disable_been_called st = true).
  { subst st. rewrite run_ops_app. unfold run_ops at 1. cbn [fold_left step].
    now rewrite disable_old_alerts_eq. }
  split.
  - change (before ++ CallDisable marker :: after)
      with (before ++ [CallDisable marker] ++ after).
    rewrite List.app_assoc, run_ops_app. fold st. now apply run_ops_closed.
  - split; [exact Hd |]. split.
    + intros later c. rewrite (run_ops_closed later st Hd). cbn [step].
      rewrite closed_alert_raises by exact Hd. eauto.
    + intros later m. now rewrite (run_ops_closed later st Hd).
Qed.

Section Counting.

Lemma length_registered_ids (st : registry) :
  length (registered_ids st) = numid st + length (strid st).
Proof.
  unfold registered_ids. now rewrite length_app, !length_map, length_seq.
Qed.

(** One call: the registry gains one identifier when it is a call of
    [alert] that returns, and none otherwise; nothing is ever removed. *)
Lemma step_counts (o : op) (st : registry) :
  numid (snd (step o st)) + length (strid (snd (step o st)))
  = numid st + length (strid st) + alerts_done [o] st
  /\ numid st <= numid (snd (step o st))
  /\ exists added, strid (snd (step o st)) = strid st ++ added.
Proof.
  destruct o as [c | marker]; cbn [step alerts_done].
  - destruct (level_ok (call_level c)) eqn:Hl.
    + destruct (has_disable_been_called st) eqn:Hd.
      * rewrite alert_after_disable by assumption. cbn [fst snd].
        split; [lia |]. split; [lia |]. exists []. now rewrite List.app_nil_r.
      * rewrite alert_ok by assumption.
        destruct (call_ID c) as [s|]; cbn [fst snd numid strid].
        -- split; [rewrite length_app; simpl; lia |]. split; [lia |]. now exists [s].
        -- split; [lia |]. split; [lia |]. exists []. now rewrite List.app_nil_r.
    + rewrite alert_bad_level by assumption. cbn [fst snd].
      split; [lia |]. split; [lia |]. exists []. now rewrite List.app_nil_r.
  - rewrite disable_old_alerts_eq. cbn [fst snd numid strid].
    split; [lia |]. split; [lia |]. exists []. now rewrite List.app_nil_r.
Qed.

End Counting.

(** X5: under any sequence of calls of [alert] and [disable_old_alerts],
    failing ones included, the registry only grows: the counter never
    decreases, the list of string identifiers is only appended to, and the
    number of identifiers registered has grown by the number of calls of
    [alert] that returned a banner. *)
Theorem registry_counts_alerts (ops : list op) (st0 : registry) :
  let st := run_ops ops st0 in
  length (registered_ids st) = length (registered_ids st0) + alerts_done ops st0
  /\ numid st0 <= numid st
  /\ exists added, strid st = strid st0 ++ added.
Proof.
  cbv zeta. rewrite !length_registered_ids. revert st0.
  induction ops as [|o ops IH]; intros st0.
  - unfold run_ops. cbn [fold_left alerts_done].
    split; [lia |]. split; [lia |]. exists []. now rewrite List.app_nil_r.
  - destruct (step_counts o st0) as (H1 & H2 & added1 & H3).
    destruct (IH (snd (step o st0))) as (I1 & I2 & added2 & I3).
    change (run_ops (o :: ops) st0) with (run_ops ops (snd (step o st0))).
    cbn [alerts_done] in *. split; [lia |]. split; [lia |].
    exists (added1 ++ added2). now rewrite I3, H3, List.app_assoc.
Qed.

Section MixedIds.

Lemma assigned_ids_nth (calls : list call) : forall n k c,
  nth_error calls k = Some c ->
  nth_error (assigned_ids n calls) k
  = Some (match call_ID c with
          | None => IntId (n + auto_count (firstn k calls))
          | Some s => StrId s
          end).
Proof.
  induction calls as [|c0 calls IH]; intros n k c Hk; [now destruct k |].
  destruct k as [|k]; cbn [nth_error firstn auto_count assigned_ids] in *.
  - injection Hk as ->. destruct (call_ID c); [reflexivity |].
    cbn [nth_error]. now rewrite Nat.add_0_r.
  - destruct (call_ID c0) as [s0|]; cbn [nth_error]; rewrite (IH _ _ _ Hk);
      [reflexivity |].
    destruct (call_ID c); [reflexivity |]. now rewrite Nat.add_succ_r.
Qed.

End MixedIds.

(** X6: in a sequence of calls with recognised levels on the initial
    registry, a call without [ID] gets the number of the calls without [ID]
    made before it: the calls that give their own identifier use up no
    number, and get that identifier. *)
Theorem explicit_ids_use_no_number (calls : list call) :
  Forall valid_call calls ->
  exists banners st,
    run_alerts calls registry_init = (Ok banners, st)
    /\ numid st = auto_count calls
    /\ forall k c, nth_error calls k = Some c ->
         nth_error banners k
         = Some (banner (match call_ID c with
                         | None => IntId (auto_count (firstn k calls))
                         | Some s => StrId s
                         end) (call_level c) (call_title c) (call_text c)).
Proof.
  intros Hv. eexists _, _. split; [apply (run_alerts_ok calls registry_init eq_refl Hv) |].
  split; [reflexivity |]. intros k c Hk.
  apply banners_of_nth; [|exact Hk].
  now rewrite (assigned_ids_nth calls _ k c Hk).
Qed.

Lemma explicit_ids_use_no_number_witness :
  exists banners st,
    run_alerts [ mkCall "A" "a" "info" None;
                 mkCall "B" "b" "warning" (Some "moved");
                 mkCall "C" "c" "info" None ] registry_init = (Ok banners, st)
    /\ numid st = 2
    /\ nth_error banners 2 = Some (banner (IntId 1) "info" "C" "c").
Proof.
  destruct (explicit_ids_use_no_number
              [ mkCall "A" "a" "info" None;
                mkCall "B" "b" "warning" (Some "moved");
                mkCall "C" "c" "info" None ])
    as (banners & st & Hrun & Hn & Hk).
  { unfold valid_call.
    repeat (apply List.Forall_cons;
            [first [left; reflexivity | right; reflexivity] |]).
    apply List.Forall_nil. }
  exists banners, st. split; [exact Hrun |]. split; [exact Hn |].
  exact (Hk 2 (mkCall "C" "c" "info" None) eq_refl).
Defined.

(** ** What of a [hex] value is read *)

Section HexReading.
Context {rt : Runtime}.

Lemma channel_first_six (s : string) (i : nat) :
  i <= 2 -> channel (Utf8.take 6 s) i = channel s i.
Proof.
  intros Hi. unfold channel, Utf8.slice. rewrite slice_take by lia. reflexivity.
Qed.

Lemma luma_first_six_chars (h : string) :
  luma h
  = match channel (Utf8.take 6 (Str.lstrip "#" h)) 0 with
    | None => Raise hex_error
    | Some r =>
        match channel (Utf8.take 6 (Str.lstrip "#" h)) 1 with
        | None => Raise hex_error
        | Some g =>
            match channel (Utf8.take 6 (Str.lstrip "#" h)) 2 with
            | None => Raise hex_error
            | Some b => Ok (luma_of r g b)
            end
        end
    end.
Proof. unfold luma. now rewrite !channel_first_six by lia. Qed.


(** Checked on the 256 characters: a hexadecimal digit and its lower case
    have the same value. *)
Lemma digit_lower_table :
  forallb (fun n =>
      let c := ascii_of_nat n in
      implb (is_hex_digit c)
        (match Int16.digit (Str.to_lower c), Int16.digit c with
         | Some v, Some w => Z.eqb v w
         | _, _ => false
         end))
    (seq 0 256) = true.
Proof. vm_compute. reflexivity. Qed.

Lemma digit_lower (c : ascii) :
  is_hex_digit c = true -> Int16.digit (Str.to_lower c) = Int16.digit c.
Proof.
  intros Hc. pose proof digit_lower_table as Ht. rewrite forallb_forall in Ht.
  specialize (Ht (nat_of_ascii c)
                ltac:(apply in_seq; pose proof (nat_ascii_bounded c); lia)).
  cbv zeta in Ht. rewrite ascii_nat_embedding, Hc in Ht. simpl implb in Ht.
  destruct (Int16.digit (Str.to_lower c)) as [v|], (Int16.digit c) as [w|];
    try discriminate.
  apply Z.eqb_eq in Ht. now subst.
Qed.

Lemma is_hex_digit_lower (c : ascii) :
  is_hex_digit c = true -> is_hex_digit (Str.to_lower c) = true.
Proof. intros Hc. unfold is_hex_digit in *. now rewrite (digit_lower c Hc). Qed.

Lemma pair_value_lower (c1 c2 : ascii) :
  is_hex_digit c1 = true -> is_hex_digit c2 = true ->
  pair_value (Str.to_lower c1) (Str.to_lower c2) = pair_value c1 c2.
Proof. intros H1 H2. unfold pair_value. now rewrite !digit_lower. Qed.

End HexReading.

(** X7: of a [hex] value the generator reads the six characters that follow
    the leading hashes, and nothing else: two values that agree on them have
    the same luma, or both fail.  So [FF0000], [##FF0000] and [#FF0000AA] are
    read as [#FF0000] is.  The characters are those of the text, of one byte
    or of several. *)
Theorem luma_reads_six_chars {rt : Runtime} (h h' : string) :
  Utf8.take 6 (Str.lstrip "#" h) = Utf8.take 6 (Str.lstrip "#" h') ->
  luma h = luma h'.
Proof. intros H. now rewrite (luma_first_six_chars h), (luma_first_six_chars h'), H. Qed.

(** The last two values end with the fullwidth digit one, U+FF11. *)
Lemma luma_reads_six_chars_witness :
  luma (rt := ascii_runtime) "##ff0000aa" = luma (rt := ascii_runtime) "#ff0000"
  /\ luma (rt := ascii_runtime) "ff0000" = luma (rt := ascii_runtime) "#ff0000"
  /\ luma (rt := sample_runtime)
       ("#00000" +:+ String "239" (String "188" (String "145" "0")))
     = luma (rt := sample_runtime)
         ("#00000" +:+ String "239" (String "188" (String "145" ""))).
Proof.
  split; [|split].
  - exact (luma_reads_six_chars (rt := ascii_runtime) "##ff0000aa" "#ff0000" eq_refl).
  - exact (luma_reads_six_chars (rt := ascii_runtime) "ff0000" "#ff0000" eq_refl).
  - exact (luma_reads_six_chars (rt := sample_runtime)
             ("#00000" +:+ String "239" (String "188" (String "145" "0")))
             ("#00000" +:+ String "239" (String "188" (String "145" ""))) eq_refl).
Defined.



(** X9: the digits of a colour written [#RRGGBB] are read without regard to
    their case: the colour in lower case is a colour too and has the same
    luma, hence the same text colours. *)
Theorem luma_case_insensitive {rt : Runtime} (h : string) :
  is_rrggbb h = true ->
  is_rrggbb (lower h) = true /\ luma (lower h) = luma h.
Proof.
  intros (r1 & r2 & g1 & g2 & b1 & b2 & -> & Hd)%rrggbb_inv.
  pose proof Hd as Hd'. cbn [forallb] in Hd'. rewrite !andb_true_iff in Hd'.
  destruct Hd' as (Hr1 & Hr2 & Hg1 & Hg2 & Hb1 & Hb2 & _).
  assert (Hl : forallb is_hex_digit
                 [Str.to_lower r1; Str.to_lower r2; Str.to_lower g1;
                  Str.to_lower g2; Str.to_lower b1; Str.to_lower b2] = true).
  { cbn [forallb]. now rewrite !is_hex_digit_lower. }
  change (lower (String "#" (String r1 (String r2 (String g1 (String g2
            (String b1 (String b2 ""))))))))
    with (String "#" (String (Str.to_lower r1) (String (Str.to_lower r2)
            (String (Str.to_lower g1) (String (Str.to_lower g2)
               (String (Str.to_lower b1) (String (Str.to_lower b2) ""))))))).
  split; [exact Hl |].
  rewrite (luma_rrggbb _ _ _ _ _ _ Hl), (luma_rrggbb _ _ _ _ _ _ Hd).
  now rewrite !pair_value_lower.
Qed.

Lemma luma_case_insensitive_witness :
  is_rrggbb "#a1b2c3" = true
  /\ luma (rt := ascii_runtime) "#a1b2c3" = luma (rt := ascii_runtime) "#A1B2C3".
Proof.
  exact (luma_case_insensitive (rt := ascii_runtime) "#A1B2C3" eq_refl).
Defined.

(** ** A table that cannot be read, and tables put end to end *)

Section CssErrors.
Context {rt : Runtime}.

Lemma luma_raises (h : string) (e : exn) : luma h = Raise e -> e = hex_error.
Proof.
  unfold luma.
  destruct (channel _ 0); [|now intros [= <-]].
  destruct (channel _ 1); [|now intros [= <-]].
  destruct (channel _ 2); [discriminate | now intros [= <-]].
Qed.

(** The exception a row that cannot be read raises: that of the method
    called on [None] when the row has no [hex], that of [int] when it has
    one. *)
Lemma color_rules_unreadable (d : color_def) :
  ~ readable d ->
  color_rules d
  = Raise (match hex d with None => no_hex_error | Some _ => hex_error end).
Proof.
  intros Hd. unfold color_rules. destruct (hex d) as [h|] eqn:Hh; [|reflexivity].
  destruct (luma h) as [l|e] eqn:Hl.
  - exfalso. apply Hd. now exists h, l.
  - now rewrite (luma_raises _ _ Hl).
Qed.

Lemma readable_dec (d : color_def) : readable d \/ ~ readable d.
Proof.
  unfold readable. destruct (hex d) as [h|].
  - destruct (luma h) as [l|e] eqn:Hl; [left; eauto |].
    right. intros (h' & l & [= <-] & Hl'). congruence.
  - right. intros (h' & l & Hh & _). discriminate.
Qed.

Lemma rows_readable_dec (rows : list color_def) :
  Forall readable rows \/ Exists (fun d => ~ readable d) rows.
Proof.
  induction rows as [|d rows [IH | IH]]; [left; constructor | |].
  - destruct (readable_dec d); [left | right]; now constructor.
  - right. now constructor 2.
Qed.

(** The first row that cannot be read, after rows that can. *)
Lemma first_unreadable (rows : list color_def) :
  Exists (fun d => ~ readable d) rows ->
  exists before d after,
    rows = before ++ d :: after /\ Forall readable before /\ ~ readable d.
Proof.
  induction rows as [|d rows IH]; intros Hex; [inversion Hex |].
  destruct (readable_dec d) as [Hd | Hd].
  - inversion Hex as [? ? Hn | ? ? Hrest]; subst; [contradiction |].
    destruct (IH Hrest) as (before & d' & after & -> & Hb & Hd').
    exists (d :: before), d', after. repeat split; [now constructor | exact Hd'].
  - exists [], d, rows. repeat split; [constructor | exact Hd].
Qed.

(** The loop started with rules already there goes on as from none. *)
Lemma css_rules_from_acc (rows : list color_def) : forall acc,
  css_rules_from acc rows
  = match css_rules_from [] rows with
    | Ok rules => Ok (acc ++ rules)
    | Raise e => Raise e
    end.
Proof.
  induction rows as [|d rows IH]; intros acc; cbn [css_rules_from].
  - now rewrite List.app_nil_r.
  - destruct (color_rules d) as [rules|e]; [|reflexivity].
    rewrite (IH (acc ++ rules)), (IH ([] ++ rules)).
    destruct (css_rules_from [] rows); [|reflexivity].
    now rewrite List.app_assoc.
Qed.

(** The loop stops at the first row that cannot be read, with its
    exception. *)
Lemma css_rules_raises (before after : list color_def) (d : color_def) :
  Forall readable before -> ~ readable d ->
  css_rules (before ++ d :: after)
  = Raise (match hex d with None => no_hex_error | Some _ => hex_error end).
Proof.
  intros Hb Hd. unfold css_rules. generalize (@nil string) as acc.
  induction Hb as [|d0 before Hd0 _ IH]; intros acc; cbn [app css_rules_from].
  - now rewrite (color_rules_unreadable d Hd).
  - destruct (color_rules_readable d0 Hd0) as (oh & orl & ob & -> & _). apply IH.
Qed.

End CssErrors.

(** X10: the module is built all or nothing: [EXPORTS] exists when every
    colour of the table can be read; one colour that cannot be read, wherever
    it stands in the table, makes the module raise, and then neither the
    rules of the other colours nor the tables of the tabs are exported.  The
    exception is that of the first such row: the [AttributeError] of
    [None.lstrip] when the row has no [hex], the [ValueError] of [int] when
    it has one. *)
Theorem exports_all_or_nothing {rt : Runtime} (rows : list color_def)
    (tab_1_character tab_2_abilities tab_3_magic
     tab_4_combat tab_5_spells tab_6_sheet : gmap string pyobj) :
  (Forall readable rows \/ Exists (fun d => ~ readable d) rows)
  /\ (Forall readable rows ->
      exists exports,
        EXPORTS rows tab_1_character tab_2_abilities tab_3_magic
          tab_4_combat tab_5_spells tab_6_sheet = Ok exports)
  /\ (Exists (fun d => ~ readable d) rows ->
      exists before d after,
        rows = before ++ d :: after /\ Forall readable before /\ ~ readable d)
  /\ (forall before d after,
        rows = before ++ d :: after -> Forall readable before -> ~ readable d ->
        let e := match hex d with
                 | None => AttributeError "'NoneType' object has no attribute 'lstrip'"
                 | Some _ => ValueError "invalid literal for int() with base 16"
                 end in
        css_rules rows = Raise e
        /\ custom_rt_color_css rows = Raise e
        /\ EXPORTS rows tab_1_character tab_2_abilities tab_3_magic
             tab_4_combat tab_5_spells tab_6_sheet = Raise e).
Proof.
  split; [apply rows_readable_dec |]. split; [|split].
  - intros Hall. unfold EXPORTS, custom_rt_color_css, css_rules.
    rewrite (css_rules_from_ok rows [] Hall). eauto.
  - apply first_unreadable.
  - intros before d after -> Hb Hd.
    pose proof (css_rules_raises before after d Hb Hd) as Hr.
    unfold EXPORTS, custom_rt_color_css. rewrite Hr.
    destruct (hex d); auto.
Qed.

(** A table with a colour in the short form, and a table with a row that
    has no [hex]. *)
Lemma exports_all_or_nothing_witness :
  EXPORTS (rt := ascii_runtime)
    [ mkColor (Some "red") (Some "#FF0000"); mkColor (Some "short") (Some "#FFF");
      mkColor (Some "blue") None ]
    {[ "name" := PyStr "character" ]} ∅ ∅ ∅ ∅ ∅
  = Raise (ValueError "invalid literal for int() with base 16")
  /\ EXPORTS (rt := ascii_runtime)
       [ mkColor (Some "red") (Some "#FF0000"); mkColor (Some "blue") None;
         mkColor (Some "short") (Some "#FFF") ]
       {[ "name" := PyStr "character" ]} ∅ ∅ ∅ ∅ ∅
     = Raise (AttributeError "'NoneType' object has no attribute 'lstrip'").
Proof.
  assert (Hred : Forall (readable (rt := ascii_runtime))
                   [mkColor (Some "red") (Some "#FF0000")]).
  { apply List.Forall_cons; [|apply List.Forall_nil].
    exists "#FF0000". eexists. split; reflexivity. }
  split.
  - apply (proj2 (proj2 (proj2 (exports_all_or_nothing (rt := ascii_runtime)
               [ mkColor (Some "red") (Some "#FF0000");
                 mkColor (Some "short") (Some "#FFF");
                 mkColor (Some "blue") None ]
               {[ "name" := PyStr "character" ]} ∅ ∅ ∅ ∅ ∅)))
             [mkColor (Some "red") (Some "#FF0000")]
             (mkColor (Some "short") (Some "#FFF"))
             [mkColor (Some "blue") None] eq_refl Hred).
    intros (h & l & [= <-] & Hl). discriminate.
  - apply (proj2 (proj2 (proj2 (exports_all_or_nothing (rt := ascii_runtime)
               [ mkColor (Some "red") (Some "#FF0000");
                 mkColor (Some "blue") None;
                 mkColor (Some "short") (Some "#FFF") ]
               {[ "name" := PyStr "character" ]} ∅ ∅ ∅ ∅ ∅)))
             [mkColor (Some "red") (Some "#FF0000")]
             (mkColor (Some "blue") None)
             [mkColor (Some "short") (Some "#FFF")] eq_refl Hred).
    intros (h & l & Hh & _). discriminate.
Defined.

(** X11: the rules of a table made of two tables end to end are the rules
    of the first followed by the rules of the second; a colour that cannot be
    read in the first fails before the second is looked at. *)
Theorem css_rules_app {rt : Runtime} (rows1 rows2 : list color_def) :
  css_rules (rows1 ++ rows2)
  = match css_rules rows1 with
    | Raise e => Raise e
    | Ok rules1 =>
        match css_rules rows2 with
        | Raise e => Raise e
        | Ok rules2 => Ok (rules1 ++ rules2)
        end
    end.
Proof.
  unfold css_rules. generalize (@nil string) at 1 2 as acc.
  induction rows1 as [|d rows1 IH]; intros acc; cbn [app css_rules_from].
  - apply css_rules_from_acc.
  - destruct (color_rules d) as [rules|e]; [apply IH | reflexivity].
Qed.

(** ** The order of the tabs *)

Section MergeOrder.

Lemma last_binding_agree (k : string) (tabs : list (gmap string pyobj))
    (t : gmap string pyobj) (v : pyobj) :
  agree tabs -> In t tabs -> t !! k = Some v -> last_binding k tabs = Some v.
Proof.
  intros Hag Hin Hv. destruct (last_binding k tabs) as [w|] eqn:Hw.
  - destruct (last_binding_Some k tabs w Hw) as (j & t' & Hj & Ht').
    f_equal. exact (Hag t' t k w v (nth_error_In _ _ Hj) Hin Ht' Hv).
  - apply last_binding_None in Hw. rewrite List.Forall_forall in Hw.
    rewrite (Hw t Hin) in Hv. discriminate.
Qed.

Lemma agree_perm (tabs tabs' : list (gmap string pyobj)) :
  Permutation tabs tabs' -> agree tabs -> agree tabs'.
Proof.
  intros Hp Hag t t' k v v' Ht Ht'.
  apply (Hag t t' k v v'); eapply Permutation_in; try eassumption;
    now apply Permutation_sym.
Qed.

Lemma merge_tabs_perm (m : gmap string pyobj) (tabs tabs' : list (gmap string pyobj)) :
  agree tabs -> Permutation tabs tabs' -> merge_tabs m tabs = merge_tabs m tabs'.
Proof.
  intros Hag Hp. apply map_eq. intros k. rewrite !lookup_merge_tabs.
  destruct (last_binding k tabs) as [w|] eqn:Hw.
  - destruct (last_binding_Some k tabs w Hw) as (j & t & Hj & Ht).
    rewrite (last_binding_agree k tabs' t w (agree_perm _ _ Hp Hag)
               (Permutation_in _ Hp (nth_error_In _ _ Hj)) Ht).
    reflexivity.
  - apply last_binding_None in Hw.
    assert (Hw' : last_binding k tabs' = None).
    { apply last_binding_None. rewrite List.Forall_forall in *.
      intros t Ht. apply Hw. eapply Permutation_in; [|exact Ht].
      now apply Permutation_sym. }
    now rewrite Hw'.
Qed.

End MergeOrder.

(** X12: the order in which the tabs are merged matters only for the keys
    that two tabs bind to different values: when the six tables give one
    value to every key they share (in particular when no key is shared),
    merging them in any other order builds the same [EXPORTS]. *)
Theorem exports_order_irrelevant {rt : Runtime} (rows : list color_def)
    (a1 a2 a3 a4 a5 a6 b1 b2 b3 b4 b5 b6 : gmap string pyobj) :
  agree [a1; a2; a3; a4; a5; a6] ->
  Permutation [a1; a2; a3; a4; a5; a6] [b1; b2; b3; b4; b5; b6] ->
  EXPORTS rows a1 a2 a3 a4 a5 a6 = EXPORTS rows b1 b2 b3 b4 b5 b6.
Proof.
  intros Hag Hp. unfold EXPORTS.
  destruct (custom_rt_color_css rows) as [css|e]; [|reflexivity].
  f_equal. exact (merge_tabs_perm (EXPORTS_own css) _ _ Hag Hp).
Qed.

Lemma exports_order_irrelevant_witness :
  EXPORTS (rt := ascii_runtime) []
    {[ "name" := PyStr "n" ]} {[ "age" := PyStr "a" ]} ∅ ∅ ∅ ∅
  = EXPORTS (rt := ascii_runtime) []
      {[ "age" := PyStr "a" ]} {[ "name" := PyStr "n" ]} ∅ ∅ ∅ ∅.
Proof.
  apply (exports_order_irrelevant (rt := ascii_runtime)); [| apply perm_swap].
  intros t t' k v v' Ht Ht' Hv Hv'.
  assert (Hcases : forall u w, In u [ ({[ "name" := PyStr "n" ]} : gmap string pyobj);
                                      {[ "age" := PyStr "a" ]}; ∅; ∅; ∅; ∅ ] ->
                     u !! k = Some w ->
                     (k = "name" /\ w = PyStr "n") \/ (k = "age" /\ w = PyStr "a")).
  { intros u w Hu Hw. simpl in Hu.
    destruct Hu as [<- | [<- | Hu]].
    - apply lookup_singleton_Some in Hw as [<- <-]. now left.
    - apply lookup_singleton_Some in Hw as [<- <-]. now right.
    - assert (u = ∅) as -> by (repeat destruct Hu as [<- | Hu]; try reflexivity; destruct Hu).
      rewrite lookup_empty in Hw. discriminate. }
  destruct (Hcases t v Ht Hv) as [[-> ->] | [-> ->]],
           (Hcases t' v' Ht' Hv') as [[? ->] | [? ->]]; congruence.
Defined.

(** Where two tabs bind a key differently the order does matter. *)
Example exports_order_matters {rt : Runtime} :
  EXPORTS [] {[ "name" := PyStr "first" ]} {[ "name" := PyStr "second" ]} ∅ ∅ ∅ ∅
  <> EXPORTS [] {[ "name" := PyStr "second" ]} {[ "name" := PyStr "first" ]} ∅ ∅ ∅ ∅.
Proof.
  intros H.
  apply (f_equal (fun r : result (gmap string pyobj) =>
                    match r with Ok m => m !! "name" | Raise _ => None end)) in H.
  vm_compute in H. discriminate.
Qed.

(** ** A title on several lines *)

Section TitleNewline.
Import Str Textwrap.

Lemma next_margin_empty (acc : option string) : next_margin acc "" = Some "".
Proof. destruct acc as [[|c m]|]; reflexivity. Qed.

Lemma fold_margin_from_empty (inds : list string) :
  fold_left next_margin inds (Some "") = Some "".
Proof.
  apply fold_margin_exact, List.Forall_forall. intros i _. now destruct i.
Qed.

(** A line that starts at the left edge leaves no margin to remove. *)
Lemma fold_margin_empty (inds : list string) : forall acc,
  In "" inds -> fold_left next_margin inds acc = Some "".
Proof.
  induction inds as [|i inds IH]; intros acc Hin; [destruct Hin |].
  cbn [fold_left]. destruct Hin as [-> | Hin].
  - rewrite next_margin_empty. apply fold_margin_from_empty.
  - now apply IH.
Qed.

Lemma dedent_no_margin (text : string) (c : ascii) (r : string) :
  is_blank c = false ->
  In (String c r) (split_lines text) ->
  dedent text = join nl (map normalize (split_lines text)).
Proof.
  intros Hc Hin. rewrite dedent_eq.
  assert (Hm : margin_str (map normalize (split_lines text)) = "").
  { unfold margin_str, margin_of. rewrite fold_margin_empty; [reflexivity |].
    unfold indents. apply in_map_iff. exists (String c r). split.
    - simpl. now rewrite Hc.
    - apply filter_In. split; [|reflexivity].
      apply in_map_iff. exists (String c r). split; [|exact Hin].
      unfold normalize. simpl. now rewrite Hc. }
  rewrite Hm. now rewrite (map_ext _ (fun l => l) strip_margin_nil), map_id.
Qed.

End TitleNewline.

(** X13: a title on several lines, one of which after the first starts with
    a character that is not a blank, leaves the template without a common
    margin: nothing is removed, and the banner keeps the indentation of the
    source, starting with the eight spaces before the hidden input. *)
Theorem title_newline_keeps_margin (i : alert_id) (level a b text : string)
    (c : ascii) :
  Textwrap.is_blank c = false ->
  Ascii.eqb c Str.nl_char = false ->
  let title := a +:+ Str.nl +:+ String c b in
  let template :=
    alert_template i level title
      (Str.replace Str.nl_char (Str.nl +:+ Str.spaces 16) text) in
  banner i level title text
  = Str.join Str.nl (map Textwrap.normalize (Str.split_lines template))
  /\ String.prefix (Str.spaces 8 +:+ "<") (banner i level title text) = true.
Proof.
  intros Hc Hnl title template.
  assert (Hin : In (String c (hd "" (Str.split_lines (b +:+ "</h3>"))))
                  (Str.split_lines template)).
  { apply (template_lines_in i level title _ 3 _ _ eq_refl).
    replace (Str.spaces 16 +:+ "<h3> " +:+ Str.title level +:+ " - " +:+ title +:+ "</h3>")
      with ((Str.spaces 16 +:+ "<h3> " +:+ Str.title level +:+ " - " +:+ a)
            +:+ String Str.nl_char (String c (b +:+ "</h3>")))
      by (unfold title; rewrite !app_assoc; reflexivity).
    rewrite split_lines_nl, (split_lines_String c _ Hnl).
    apply in_app_iff. right. now left. }
  assert (Heq : banner i level title text
                = Str.join Str.nl (map Textwrap.normalize (Str.split_lines template))).
  { unfold banner. change (4 * 4) with 16. exact (dedent_no_margin _ c _ Hc Hin). }
  split; [exact Heq |]. rewrite Heq.
  destruct (template_first_line i level title
              (Str.replace Str.nl_char (Str.nl +:+ Str.spaces 16) text)) as (r & Hr).
  fold template in Hr. rewrite (split_lines_cons template), Hr. cbn [map].
  rewrite normalize_not_blank by reflexivity.
  apply prefix_iff. unfold Str.join.
  destruct (map Textwrap.normalize (tl (Str.split_lines template))) as [|l ls]; simpl.
  - now exists r.
  - eexists. reflexivity.
Qed.

Lemma title_newline_keeps_margin_witness :
  String.prefix (Str.spaces 8 +:+ "<")
    (banner (IntId 0) "info" ("Update" +:+ Str.nl +:+ "again") "Read this") = true.
Proof.
  exact (proj2 (title_newline_keeps_margin (IntId 0) "info" "Update" "gain"
                  "Read this" "a" eq_refl eq_refl)).
Defined.
